(** * Account actions of the storage-management application

    A shallow embedding of [src/lib/actions/user.actions.ts]: the server
    actions [sendEmailOTP], [createAccount], [verifySecret],
    [getCurrentUser], [signOutUser] and [signInUser].

    The actions are sequential [async] functions that talk to three
    collaborators: the Account Directory (Appwrite's account service), the
    Profile Store (the users collection of the Appwrite database) and the
    Session Carrier (the cookie jar of the web framework).  They are
    embedded in a state-and-exception monad over a [World]; what the
    collaborators answer is not decided by the actions, so it is read from
    an environment [Env], one answer at a time, indexed by a clock that
    advances with every answer.

    Strings are modelled as sequences of ASCII characters: [toLowerCase]
    and [trim] leave characters outside that range untouched. *)

From Stdlib Require Import String Ascii List ZArith Bool Lia.
From stdpp Require Import base gmap strings.
Import ListNotations.
Open Scope string_scope.
Open Scope list_scope.

(** ** JavaScript strings *)

(** [hay.includes(needle)] *)
Fixpoint includes (hay needle : string) : bool :=
  if String.prefix needle hay then true
  else match hay with
       | EmptyString => false
       | String _ rest => includes rest needle
       end.

Definition lower_ascii (c : ascii) : ascii :=
  let n := nat_of_ascii c in
  if (65 <=? n)%nat && (n <=? 90)%nat then ascii_of_nat (n + 32) else c.

(** [s.toLowerCase()] *)
Fixpoint toLowerCase (s : string) : string :=
  match s with
  | EmptyString => EmptyString
  | String c rest => String (lower_ascii c) (toLowerCase rest)
  end.

(** White space removed by [trim]: TAB, LF, VT, FF, CR and SPACE. *)
Definition is_space (c : ascii) : bool :=
  let n := nat_of_ascii c in
  ((9 <=? n)%nat && (n <=? 13)%nat) || (n =? 32)%nat.

Fixpoint trimStart (s : string) : string :=
  match s with
  | EmptyString => EmptyString
  | String c rest => if is_space c then trimStart rest else s
  end.

Fixpoint trimEnd (s : string) : string :=
  match s with
  | EmptyString => EmptyString
  | String c rest =>
      match trimEnd rest with
      | EmptyString => if is_space c then EmptyString else String c EmptyString
      | kept => String c kept
      end
  end.

(** [s.trim()] *)
Definition trim (s : string) : string := trimEnd (trimStart s).

(** Truthiness of a string that may be [undefined] or [null]: the empty
    string is falsy as well. *)
Definition truthy (o : option string) : option string :=
  match o with
  | Some s => if (s =? "")%string then None else Some s
  | None => None
  end.

Definition is_truthy (o : option string) : bool :=
  match truthy o with Some _ => true | None => false end.

(** ** Thrown values *)

(** The properties of a thrown value that the actions inspect or print.
    [instanceofError] is [error instanceof Error]; an [AppwriteException]
    is an [Error] that carries [code], [type] and [response]. *)
Record JsError := mkJsError {
  instanceofError : bool;
  code : option Z;
  message : option string;
  type : option string;
  response : option string
}.

(** [new Error(msg)] *)
Definition new_Error (msg : string) : JsError :=
  {| instanceofError := true; code := None; message := Some msg;
     type := None; response := None |}.

(** A [throw] carries either an error value or the signal by which
    [redirect] of next/navigation leaves the action. *)
Inductive Thrown :=
| Exn (e : JsError)
| NextRedirect (url : string).

Definition thrown_instanceofError (t : Thrown) : bool :=
  match t with
  | Exn e => instanceofError e
  | NextRedirect _ => true
  end.

(** [error?.code] *)
Definition thrown_code (t : Thrown) : option Z :=
  match t with
  | Exn e => code e
  | NextRedirect _ => None
  end.

(** [error?.message] *)
Definition thrown_message (t : Thrown) : option string :=
  match t with
  | Exn e => message e
  | NextRedirect _ => Some "NEXT_REDIRECT"
  end.

(** [error?.code === n] *)
Definition code_is (t : Thrown) (n : Z) : bool :=
  match thrown_code t with
  | Some c => (c =? n)%Z
  | None => false
  end.

(** [error?.message?.includes(needle)] *)
Definition message_includes (t : Thrown) (needle : string) : bool :=
  match thrown_message t with
  | Some m => includes m needle
  | None => false
  end.

(** [error?.message?.toLowerCase().includes(needle)] *)
Definition message_lower_includes (t : Thrown) (needle : string) : bool :=
  match thrown_message t with
  | Some m => includes (toLowerCase m) needle
  | None => false
  end.

(** [error?.message || fallback] *)
Definition message_or (t : Thrown) (fallback : string) : string :=
  match truthy (thrown_message t) with
  | Some m => m
  | None => fallback
  end.

(** ** Data of the collaborators *)

(** A document of the users collection.  Documents written by
    [verifySecret] carry an [accountId]; [signInUser] and [verifySecret]
    both allow for documents that lack one. *)
Record Document := mkDocument {
  doc_id : string;                (* $id *)
  doc_fullName : string;
  doc_email : string;
  doc_avatar : string;
  doc_accountId : option string
}.

(** The payload of [createDocument] in [verifySecret]. *)
Record UserData := mkUserData {
  fullName : string;
  email : string;
  avatar : string;
  accountId : string
}.

Definition stored (id : string) (d : UserData) : Document :=
  {| doc_id := id; doc_fullName := fullName d; doc_email := email d;
     doc_avatar := avatar d; doc_accountId := Some (accountId d) |}.

(** [Query.equal(attribute, values)] *)
Inductive Query :=
| QueryEqual (attribute : string) (values : list string).

Record DocumentList := mkDocumentList {
  total : nat;
  documents : list Document
}.

(** The answer of [createEmailToken]; the action reads [userId] through a
    cast and provides for its absence. *)
Record Token := mkToken {
  token_userId : option string;
  token_secret : string
}.

Record Session := mkSession {
  session_id : string;            (* $id *)
  secret : string
}.

Record AccountInfo := mkAccountInfo {
  account_id : string             (* $id *)
}.

(** Options of [cookieStore.set]. *)
Record Cookie := mkCookie {
  cookie_value : string;
  path : string;
  httpOnly : bool;
  sameSite : string;
  secure : bool;
  maxAge : Z
}.

(** What a directory client authenticates with: the server key of the
    admin client, the session secret given to [setSession], or the session
    of the request (the client of [createSessionClient]). *)
Inductive Credential :=
| AdminKey
| SessionSecret (s : string)
| RequestSession.

(** ** Requests and console output *)

Inductive DirectoryCall :=
| CreateEmailToken (userId email : string)
| CreateSession (userId secret : string)
| AccountGet (cred : Credential)
| DeleteSession (cred : Credential) (sessionId : string).

Inductive StoreCall :=
| ListDocuments (q : Query)
| CreateDocument (id : string) (data : UserData)
| UpdateDocument (id : string) (newAccountId : string).

Inductive LogArg :=
| LStr (s : string)
| LOpt (s : option string)
| LNum (n : option Z)
| LThrown (t : Thrown)
| LToken (t : Token).

Inductive Level := LevelLog | LevelWarn | LevelError.

Inductive Event :=
| Console (level : Level) (args : list LogArg)
| ToDirectory (c : DirectoryCall)
| ToStore (c : StoreCall).

(** ** The world and its environment *)

Record World := mkWorld {
  clock : nat;                          (* answers of the environment *)
  profiles : list Document;             (* users collection *)
  cookieJar : gmap string Cookie;       (* Session Carrier *)
  journal : list Event                  (* requests and console, in order *)
}.

Inductive Reply (A : Type) :=
| Ok (a : A)
| Fail (e : JsError).
Arguments Ok {A} a.
Arguments Fail {A} e.

(** Everything the actions do not decide, as a function of the clock.
    [avatarPlaceholderUrl] is a constant of [@/constants], which is not
    among the sources, and [production] is read from [process.env].  The
    answers of the Account Directory are arbitrary.  The Profile Store is
    the list [profiles]: by the time a request is served, other requests
    may have added documents to it ([arrivals]), and the request may fail
    ([fault]). *)
Record Env := mkEnv {
  avatarPlaceholderUrl : string;
  production : bool;        (* process.env.NODE_ENV === "production" *)
  unique_id : nat -> string;
  createEmailToken_reply : nat -> string -> string -> Reply Token;
  createSession_reply : nat -> string -> string -> Reply Session;
  get_reply : nat -> Credential -> Reply AccountInfo;
  deleteSession_reply : nat -> Credential -> string -> Reply unit;
  sessionClient_reply : nat -> option Cookie -> Reply unit;
  arrivals : nat -> list Document;
  fault : nat -> option JsError
}.

(** ** The monad of actions *)

Inductive Outcome (A : Type) :=
| Returned (a : A)
| Threw (t : Thrown).
Arguments Returned {A} a.
Arguments Threw {A} t.

Definition M (A : Type) : Type := World -> Outcome A * World.

Definition ret {A} (a : A) : M A := fun w => (Returned a, w).

Definition throw {A} (t : Thrown) : M A := fun w => (Threw t, w).

Definition bind {A B} (m : M A) (k : A -> M B) : M B :=
  fun w =>
    match m w with
    | (Returned a, w1) => k a w1
    | (Threw t, w1) => (Threw t, w1)
    end.

Notation "'let*' x ':=' m 'in' k" := (bind m (fun x => k))
  (at level 10, x pattern, m at level 100, k at level 200).
Notation "m ';;;' k" := (bind m (fun _ => k))
  (at level 100, k at level 200, right associativity).

(** [try { body } catch (error) { handler }] *)
Definition try_catch {A} (body : M A) (handler : Thrown -> M A) : M A :=
  fun w =>
    match body w with
    | (Returned a, w1) => (Returned a, w1)
    | (Threw t, w1) => handler t w1
    end.

(** [try { body } finally { fin }]: [fin] runs whichever way [body] ends,
    and a [throw] out of [fin] replaces the completion of [body]. *)
Definition try_finally {A} (body : M A) (fin : M unit) : M A :=
  fun w =>
    match body w with
    | (r, w1) =>
        match fin w1 with
        | (Returned _, w2) => (r, w2)
        | (Threw t, w2) => (Threw t, w2)
        end
    end.

Definition record (e : Event) (w : World) : World :=
  {| clock := clock w; profiles := profiles w; cookieJar := cookieJar w;
     journal := journal w ++ [e] |}.

(** The environment has answered without a request to a collaborator. *)
Definition ticked (w : World) : World :=
  {| clock := S (clock w); profiles := profiles w; cookieJar := cookieJar w;
     journal := journal w |}.

(** A request is answered: the clock advances and the request is noted. *)
Definition asked (e : Event) (w : World) : World :=
  {| clock := S (clock w); profiles := profiles w; cookieJar := cookieJar w;
     journal := journal w ++ [e] |}.

Definition with_profiles (ps : list Document) (w : World) : World :=
  {| clock := clock w; profiles := ps; cookieJar := cookieJar w;
     journal := journal w |}.

Definition with_cookieJar (j : gmap string Cookie) (w : World) : World :=
  {| clock := clock w; profiles := profiles w; cookieJar := j;
     journal := journal w |}.

Definition console_log (args : list LogArg) : M unit :=
  fun w => (Returned tt, record (Console LevelLog args) w).

Definition console_warn (args : list LogArg) : M unit :=
  fun w => (Returned tt, record (Console LevelWarn args) w).

Definition console_error (args : list LogArg) : M unit :=
  fun w => (Returned tt, record (Console LevelError args) w).

Definition of_reply {A} (r : Reply A) (w : World) : Outcome A * World :=
  match r with
  | Ok a => (Returned a, w)
  | Fail e => (Threw (Exn e), w)
  end.

(** [404 document_not_found], the answer of [updateDocument] for an
    identifier that names no document. *)
Definition document_not_found : JsError :=
  {| instanceofError := true; code := Some 404%Z;
     message := Some "Document with the requested ID could not be found.";
     type := Some "document_not_found"; response := None |}.

Definition attribute_of (attribute : string) (d : Document) : option string :=
  if (attribute =? "$id")%string then Some (doc_id d)
  else if (attribute =? "fullName")%string then Some (doc_fullName d)
  else if (attribute =? "email")%string then Some (doc_email d)
  else if (attribute =? "avatar")%string then Some (doc_avatar d)
  else if (attribute =? "accountId")%string then doc_accountId d
  else None.

(** Exact match of the attribute against one of the values (section 6 of
    the specification). *)
Definition matches (q : Query) (d : Document) : bool :=
  match q with
  | QueryEqual attribute values =>
      match attribute_of attribute d with
      | Some x => existsb (String.eqb x) values
      | None => false
      end
  end.

Definition has_id (id : string) (d : Document) : bool :=
  (doc_id d =? id)%string.

(** The patch [{ accountId: newAccountId }] applied to the document [id]. *)
Definition patch_accountId (id newAccountId : string) (d : Document)
  : Document :=
  if has_id id d
  then {| doc_id := doc_id d; doc_fullName := doc_fullName d;
          doc_email := doc_email d; doc_avatar := doc_avatar d;
          doc_accountId := Some newAccountId |}
  else d.

(** The options [verifySecret] passes to [cookieStore.set]. *)
Definition session_cookie (value : string) (inProduction : bool) : Cookie :=
  {| cookie_value := value; path := "/"; httpOnly := true;
     sameSite := "lax"; secure := inProduction;
     maxAge := (60 * 60 * 24 * 30)%Z |}.

(** Results handed back to the pages. *)
Record CreateAccountResult := mkCreateAccountResult {
  ca_accountId : string;
  ca_fullName : string;
  ca_email : string
}.

Record VerifyResult := mkVerifyResult {
  sessionId : string;
  success : bool;
  vr_accountId : string
}.

(** [{ accountId: null, error }] or [{ accountId: userId }]. *)
Record SignInResult := mkSignInResult {
  si_accountId : option string;
  si_error : option string
}.

(** [parseStringify] of [@/lib/utils] is [JSON.parse(JSON.stringify(x))];
    on the records of strings, booleans and [null] it is applied to here
    it gives back an equal value. *)
Definition parseStringify {A} (x : A) : A := x.

Section Actions.

Variable env : Env.

(** ** The collaborators *)

(** [createAdminClient] of [@/lib/appwrite] builds client objects bound to
    the server key; it sends nothing. *)
Definition createAdminClient : M unit := ret tt.

(** Modelled from the spec: [createSessionClient] of [@/lib/appwrite],
    which is not among the sources.  The directory client it builds takes
    the session "read from the Session Carrier implicitly" (section 4.5);
    whether a client can be built from the cookie of the request is left to
    the environment ([getCurrentUser] provides for "no session"). *)
Definition createSessionClient : M Credential :=
  fun w =>
    match sessionClient_reply env (clock w)
            (cookieJar w !! "appwrite-session") with
    | Ok _ => (Returned RequestSession, ticked w)
    | Fail e => (Threw (Exn e), ticked w)
    end.

(** [ID.unique()] *)
Definition ID_unique : M string :=
  fun w => (Returned (unique_id env (clock w)), ticked w).

(** [account.createEmailToken(userId, email)] *)
Definition account_createEmailToken (userId email : string) : M Token :=
  fun w =>
    of_reply (createEmailToken_reply env (clock w) userId email)
             (asked (ToDirectory (CreateEmailToken userId email)) w).

(** [account.createSession(userId, secret)] *)
Definition account_createSession (userId password : string) : M Session :=
  fun w =>
    of_reply (createSession_reply env (clock w) userId password)
             (asked (ToDirectory (CreateSession userId password)) w).

(** [account.get()] on a client with the credential [cred] *)
Definition account_get (cred : Credential) : M AccountInfo :=
  fun w =>
    of_reply (get_reply env (clock w) cred)
             (asked (ToDirectory (AccountGet cred)) w).

(** [account.deleteSession(sessionId)] *)
Definition account_deleteSession (cred : Credential) (sessionId : string)
  : M unit :=
  fun w =>
    of_reply (deleteSession_reply env (clock w) cred sessionId)
             (asked (ToDirectory (DeleteSession cred sessionId)) w).

(** The users collection as the request that arrives at the clock of [w]
    finds it. *)
Definition served (w : World) : list Document :=
  profiles w ++ arrivals env (clock w).

(** A request to the users collection of [appwriteConfig.databaseId]. *)
Definition store_request {A} (c : StoreCall)
    (serve : list Document -> Reply A * list Document) : M A :=
  fun w =>
    let w1 := asked (ToStore c) (with_profiles (served w) w) in
    match fault env (clock w) with
    | Some e => (Threw (Exn e), w1)
    | None =>
        match serve (served w) with
        | (r, ps) => of_reply r (with_profiles ps w1)
        end
    end.

(** [databases.listDocuments(databaseId, usersCollectionId, [q])] *)
Definition databases_listDocuments (q : Query) : M DocumentList :=
  store_request (ListDocuments q)
    (fun ps =>
       let found := List.filter (matches q) ps in
       (Ok {| total := length found; documents := found |}, ps)).

(** [databases.createDocument(databaseId, usersCollectionId, id, data)] *)
Definition databases_createDocument (id : string) (data : UserData)
  : M Document :=
  store_request (CreateDocument id data)
    (fun ps => (Ok (stored id data), ps ++ [stored id data])).

(** [databases.updateDocument(databaseId, usersCollectionId, id,
    { accountId })]; the actions drop the document it answers with. *)
Definition databases_updateDocument (id newAccountId : string) : M unit :=
  store_request (UpdateDocument id newAccountId)
    (fun ps =>
       if existsb (has_id id) ps
       then (Ok tt, map (patch_accountId id newAccountId) ps)
       else (Fail document_not_found, ps)).

(** [(await cookies()).set(name, value, options)] *)
Definition cookies_set (name : string) (c : Cookie) : M unit :=
  fun w => (Returned tt, with_cookieJar (<[name := c]> (cookieJar w)) w).

(** [(await cookies()).delete(name)] *)
Definition cookies_delete (name : string) : M unit :=
  fun w => (Returned tt, with_cookieJar (delete name (cookieJar w)) w).

(** [redirect(url)] of next/navigation never returns. *)
Definition redirect {A} (url : string) : M A := throw (NextRedirect url).

(** ** The actions *)

Definition getUserByEmail (email : string) : M (option Document) :=
  createAdminClient ;;;
  let* result := databases_listDocuments (QueryEqual "email" [email]) in
  ret (if (0 <? total result)%nat then nth_error (documents result) 0
       else None).

Definition handleError {A} (error : Thrown) (message : string) : M A :=
  console_log [LThrown error; LStr message] ;;;
  throw error.

(** Answers with the [userId] field of the object the source returns. *)
Definition sendEmailOTP (email : string) (userId : option string)
  : M string :=
  createAdminClient ;;;
  try_catch
    (let* userIdToUse :=
       match truthy userId with
       | Some given => ret given
       | None => ID_unique
       end in
     let* token := account_createEmailToken userIdToUse email in
     match truthy (token_userId token) with
     | None =>
         console_warn
           [LStr "Token response doesn't contain userId, using provided userId:";
            LStr userIdToUse] ;;;
         ret userIdToUse
     | Some actualUserId =>
         console_log [LStr "Email OTP sent successfully, userId:";
                      LStr actualUserId; LStr "email:"; LStr email] ;;;
         console_log [LStr "Token response:"; LToken token] ;;;
         ret actualUserId
     end)
    (fun error =>
       console_error [LStr "Error sending email OTP:"; LThrown error] ;;;
       console_error [LStr "Error details:"; LThrown error] ;;;
       let errorMessage :=
         message_or error "Failed to send email OTP. Please try again." in
       throw (Exn (new_Error errorMessage))).

Definition AccountAlreadyExistsError : string :=
  "An account with this email already exists. Please sign in instead.".

Definition createAccount (fullName email : string)
  : M CreateAccountResult :=
  try_catch
    (let* existingUser := getUserByEmail email in
     match existingUser with
     | Some _ => throw (Exn (new_Error AccountAlreadyExistsError))
     | None =>
         let* userId := sendEmailOTP email None in
         if is_truthy (Some userId)
         then ret (parseStringify
                     {| ca_accountId := userId; ca_fullName := fullName;
                        ca_email := email |})
         else throw (Exn (new_Error "Failed to send OTP"))
     end)
    (fun error =>
       console_error [LStr "Error creating account:"; LThrown error] ;;;
       if thrown_instanceofError error then throw error
       else throw (Exn (new_Error
              (message_or error
                 "Failed to create account. Please try again.")))).

(** [error?.type] and [error?.response], which are only printed. *)
Definition thrown_type (t : Thrown) : option string :=
  match t with
  | Exn e => type e
  | NextRedirect _ => None
  end.

Definition thrown_response (t : Thrown) : option string :=
  match t with
  | Exn e => response e
  | NextRedirect _ => None
  end.

(** The messages of [verifySecret]. *)
Definition InvalidOrExpiredOtpError : string :=
  "Invalid or expired OTP. Please request a new one and try again.".

Definition InvalidOrExpiredOtp_atSession : string :=
  "Invalid or expired OTP. Please request a new one.".

Definition OtpExpiredError : string :=
  "OTP has expired. Please request a new one.".

Definition InvalidOtpFallback : string :=
  "Invalid OTP. Please try again.".

Definition ProfilePersistenceError (errorMsg : string) : string :=
  "Failed to save user data: " +:+ errorMsg +:+
  ". Please ensure your Appwrite collection has the correct attributes: fullName, email, avatar, and accounId (or accountId).".

(** The block "update accountId if it's different", which [verifySecret]
    has twice (lines 186-199 and 203-216); the copies differ in the line
    they print after the update, [done]. *)
Definition updateAccountIdIfDifferent (done : string)
    (existingUser : Document) (actualAccountId : string) : M unit :=
  match truthy (doc_accountId existingUser) with
  | Some currentAccountId =>
      if negb (currentAccountId =? actualAccountId)%string
      then
        try_catch
          (databases_updateDocument (doc_id existingUser) actualAccountId ;;;
           console_log [LStr done])
          (fun updateError =>
             console_error [LStr "Failed to update accountId:";
                            LThrown updateError])
      else ret tt
  | None => ret tt
  end.

(** The [catch] of the whole of [verifySecret] (lines 232-253). *)
Definition verifySecret_catch {A} (error : Thrown) : M A :=
  console_error [LStr "Error verifying OTP:"; LThrown error] ;;;
  console_error [LStr "Error code:"; LNum (thrown_code error)] ;;;
  console_error [LStr "Error type:"; LOpt (thrown_type error)] ;;;
  console_error [LStr "Error response:"; LOpt (thrown_response error)] ;;;
  if code_is error 401
     || message_lower_includes error "invalid token"
     || message_lower_includes error "invalid"
  then throw (Exn (new_Error InvalidOrExpiredOtpError))
  else if message_includes error "expired"
  then throw (Exn (new_Error OtpExpiredError))
  else if thrown_instanceofError error && is_truthy (thrown_message error)
  then throw error
  else throw (Exn (new_Error (message_or error InvalidOtpFallback))).

Definition verifySecret (accountId password : string)
    (fullName email : option string) : M VerifyResult :=
  try_catch
    (createAdminClient ;;;
     console_log [LStr "Verifying OTP for userId:"; LStr accountId;
                  LStr "email:"; LOpt email] ;;;
     let* session :=
       try_catch
         (account_createSession accountId password)
         (fun sessionError =>
            console_error [LStr "Session creation error:";
                           LThrown sessionError] ;;;
            if code_is sessionError 401
               || message_includes sessionError "Invalid token"
               || message_includes sessionError "Invalid"
            then throw (Exn (new_Error InvalidOrExpiredOtp_atSession))
            else throw sessionError) in
     let* accountInfo := account_get (SessionSecret (secret session)) in
     let actualAccountId := account_id accountInfo in
     console_log [LStr "Session created successfully, actual accountId:";
                  LStr actualAccountId; LStr "original accountId:";
                  LStr accountId] ;;;
     let* existingUser :=
       match truthy email with
       | Some email => getUserByEmail email
       | None => ret None
       end in
     match existingUser, truthy fullName, truthy email with
     | None, Some fullName, Some email =>
         try_catch
           (let userData :=
              {| fullName := trim fullName;
                 email := toLowerCase (trim email);
                 avatar := avatarPlaceholderUrl env;
                 accountId := actualAccountId |} in
            let* id := ID_unique in
            let* newUserDoc := databases_createDocument id userData in
            console_log
              [LStr "User document created successfully in database:";
               LStr (doc_id newUserDoc)])
           (fun dbError =>
              console_error [LStr "Error creating user document:"] ;;;
              console_error [LStr "Error message:";
                             LOpt (thrown_message dbError)] ;;;
              console_error [LStr "Error code:";
                             LNum (thrown_code dbError)] ;;;
              console_error [LStr "Error type:";
                             LOpt (thrown_type dbError)] ;;;
              console_error [LStr "Full error:"; LThrown dbError] ;;;
              let* existingUser := getUserByEmail email in
              match existingUser with
              | None =>
                  let errorMsg :=
                    message_or dbError "Unknown database error" in
                  throw (Exn (new_Error (ProfilePersistenceError errorMsg)))
              | Some existingUser =>
                  console_log
                    [LStr "User already exists in database, continuing..."] ;;;
                  updateAccountIdIfDifferent "Updated accountId in database"
                    existingUser actualAccountId
              end)
     | Some existingUser, _, _ =>
         updateAccountIdIfDifferent
           "Updated accountId in database for existing user"
           existingUser actualAccountId
     | None, _, _ => ret tt
     end ;;;
     cookies_set "appwrite-session"
       (session_cookie (secret session) (production env)) ;;;
     console_log [LStr "Session cookie set successfully"] ;;;
     ret (parseStringify
            {| sessionId := session_id session; success := true;
               vr_accountId := actualAccountId |}))
    verifySecret_catch.

Definition getCurrentUser : M (option Document) :=
  try_catch
    (let* client := createSessionClient in
     let* result := account_get client in
     if negb (is_truthy (Some (account_id result)))
     then console_log [LStr "No account found in session"] ;;; ret None
     else
       let* user :=
         databases_listDocuments
           (QueryEqual "accountId" [account_id result]) in
       if (total user <=? 0)%nat
       then
         console_log [LStr ("No user found in database for accountId: "
                            +:+ account_id result)] ;;;
         ret None
       else ret (parseStringify (nth_error (documents user) 0)))
    (fun error =>
       console_error
         [LStr "Error getting current user:";
          match truthy (thrown_message error) with
          | Some m => LStr m
          | None => LThrown error
          end] ;;;
       ret None).

Definition signOutUser : M unit :=
  let* account := createSessionClient in
  try_finally
    (try_catch
       (account_deleteSession account "current" ;;;
        cookies_delete "appwrite-session")
       (fun error => handleError error "Failed to sign out user"))
    (redirect "/sign-in").

Definition UserNotFound : string := "User not found. Please sign up first.".

Definition signInUser (email : string) : M SignInResult :=
  try_catch
    (let* existingUser := getUserByEmail email in
     match existingUser with
     | None =>
         console_log [LStr ("Sign-in attempt for email not in database: "
                            +:+ email)] ;;;
         ret (parseStringify
                {| si_accountId := None; si_error := Some UserNotFound |})
     | Some existingUser =>
         let existingAccountId := doc_accountId existingUser in
         let* userId := sendEmailOTP email (truthy existingAccountId) in
         if is_truthy (Some userId)
         then
           console_log [LStr ("OTP sent successfully for sign-in: " +:+ email
                              +:+ ", userId: " +:+ userId)] ;;;
           ret (parseStringify
                  {| si_accountId := Some userId; si_error := None |})
         else throw (Exn (new_Error "Failed to send OTP"))
     end)
    (fun error =>
       console_error [LStr "Error signing in user:"; LThrown error] ;;;
       throw (Exn (new_Error
                (message_or error "Failed to sign in. Please try again.")))).

End Actions.

(** ** Vocabulary of the properties *)

(** The requests of a journal, per collaborator. *)
Fixpoint directoryCalls (l : list Event) : list DirectoryCall :=
  match l with
  | [] => []
  | ToDirectory c :: rest => c :: directoryCalls rest
  | _ :: rest => directoryCalls rest
  end.

Fixpoint storeCalls (l : list Event) : list StoreCall :=
  match l with
  | [] => []
  | ToStore c :: rest => c :: storeCalls rest
  | _ :: rest => storeCalls rest
  end.

(** The profile a lookup by [email] finds in the collection [ps]. *)
Definition first_with_email (email : string) (ps : list Document)
  : option Document :=
  head (List.filter (matches (QueryEqual "email" [email])) ps).

(** A failure of session creation that indicates an invalid or expired
    token: status 401, or a message that mentions "invalid" in any case. *)
Definition indicates_invalid_token (e : JsError) : bool :=
  code_is (Exn e) 401 || message_lower_includes (Exn e) "invalid".

(** [w'] differs from [w] by console output only. *)
Definition only_logged (w w' : World) : Prop :=
  clock w' = clock w /\ profiles w' = profiles w /\
  cookieJar w' = cookieJar w /\
  directoryCalls (journal w') = directoryCalls (journal w) /\
  storeCalls (journal w') = storeCalls (journal w).

(** Whatever [m] does, it adds to the journal, and only events of the kind
    [P]. *)
Definition emits {A} (P : Event -> Prop) (m : M A) : Prop :=
  forall w, exists l, journal (snd (m w)) = journal w ++ l /\ Forall P l.

Definition to_store_or_console (e : Event) : Prop :=
  match e with
  | ToDirectory _ => False
  | _ => True
  end.

(** ** Scenarios *)

(** Answers of Appwrite and of the network that the scenarios use. *)
Definition invalid_token : JsError :=
  {| instanceofError := true; code := Some 401%Z;
     message := Some "Invalid token passed in the request.";
     type := Some "user_invalid_token"; response := None |}.

(** A gateway answers 502 with an empty body: the exception has the
    status and an empty message. *)
Definition bad_gateway : JsError :=
  {| instanceofError := true; code := Some 502%Z; message := Some "";
     type := None; response := Some "" |}.

(** The request does not reach the directory: the certificate of the
    endpoint is out of date. *)
Definition certificate_expired : JsError :=
  {| instanceofError := true; code := None;
     message := Some "request to https://cloud.appwrite.io/v1/account/sessions/token failed, reason: certificate has expired";
     type := Some "system"; response := None |}.

Definition rate_limited : JsError :=
  {| instanceofError := true; code := Some 429%Z;
     message := Some "Rate limit for the current endpoint has been exceeded.";
     type := Some "general_rate_limit_exceeded"; response := None |}.


Definition service_unavailable : JsError :=
  {| instanceofError := true; code := Some 503%Z;
     message := Some "Service unavailable";
     type := Some "general_server_error"; response := None |}.

(** A directory that accepts the passcode 123456, identifies every session
    as [whoami] and confirms the identifier it is asked for; a store
    without faults and without other writers. *)
Definition calm (whoami : string) : Env :=
  {| avatarPlaceholderUrl := "/assets/images/avatar.png";
     production := false;
     unique_id := fun n => "unique-" +:+ String (ascii_of_nat (48 + n)) "";
     createEmailToken_reply := fun _ userId _ =>
       Ok {| token_userId := Some userId; token_secret := "" |};
     createSession_reply := fun _ _ password =>
       if (password =? "123456")%string
       then Ok {| session_id := "session-1"; secret := "secret-1" |}
       else Fail invalid_token;
     get_reply := fun _ _ => Ok {| account_id := whoami |};
     deleteSession_reply := fun _ _ _ => Ok tt;
     sessionClient_reply := fun _ c =>
       match c with
       | Some _ => Ok tt
       | None => Fail (new_Error "No session")
       end;
     arrivals := fun _ => [];
     fault := fun _ => None |}.

(** The request answered at clock [n] fails with [e]. *)
Definition with_fault (n : nat) (e : JsError) (base : Env) : Env :=
  {| avatarPlaceholderUrl := avatarPlaceholderUrl base;
     production := production base;
     unique_id := unique_id base;
     createEmailToken_reply := createEmailToken_reply base;
     createSession_reply := createSession_reply base;
     get_reply := get_reply base;
     deleteSession_reply := deleteSession_reply base;
     sessionClient_reply := sessionClient_reply base;
     arrivals := arrivals base;
     fault := fun t => if (t =? n)%nat then Some e else fault base t |}.


(** The directory fails every session creation with [e]. *)
Definition with_createSession_failure (e : JsError) (base : Env) : Env :=
  {| avatarPlaceholderUrl := avatarPlaceholderUrl base;
     production := production base;
     unique_id := unique_id base;
     createEmailToken_reply := createEmailToken_reply base;
     createSession_reply := fun _ _ _ => Fail e;
     get_reply := get_reply base;
     deleteSession_reply := deleteSession_reply base;
     sessionClient_reply := sessionClient_reply base;
     arrivals := arrivals base;
     fault := fault base |}.

(** The directory fails every session deletion with [e]. *)
Definition with_deleteSession_failure (e : JsError) (base : Env) : Env :=
  {| avatarPlaceholderUrl := avatarPlaceholderUrl base;
     production := production base;
     unique_id := unique_id base;
     createEmailToken_reply := createEmailToken_reply base;
     createSession_reply := createSession_reply base;
     get_reply := get_reply base;
     deleteSession_reply := fun _ _ _ => Fail e;
     sessionClient_reply := sessionClient_reply base;
     arrivals := arrivals base;
     fault := fault base |}.

(** The profile of Ana, with the identifier [stored_id] on file. *)
Definition ana (stored_id : option string) : Document :=
  {| doc_id := "doc-ana"; doc_fullName := "Ana"; doc_email := "ana@x.com";
     doc_avatar := "/assets/images/avatar.png"; doc_accountId := stored_id |}.

Definition world_of (ps : list Document) (jar : gmap string Cookie) : World :=
  {| clock := 0; profiles := ps; cookieJar := jar; journal := [] |}.

Definition signed_in : gmap string Cookie :=
  {[ "appwrite-session" := session_cookie "secret-1" false ]}.

(** ** Tactics *)

(** Symbolic execution of an action: unfold the monad, keep the strings,
    the cookie jar and the classification of errors folded. *)
Ltac run :=
  cbn -[insert delete lookup includes toLowerCase trim truthy is_truthy
        code_is message_includes message_lower_includes message_or
        thrown_instanceofError thrown_message thrown_code thrown_type
        thrown_response List.filter existsb verifySecret_catch
        updateAccountIdIfDifferent getUserByEmail
        InvalidOrExpiredOtpError InvalidOrExpiredOtp_atSession
        OtpExpiredError InvalidOtpFallback ProfilePersistenceError
        AccountAlreadyExistsError UserNotFound].

Ltac run_in H :=
  cbn -[insert delete lookup includes toLowerCase trim truthy is_truthy
        code_is message_includes message_lower_includes message_or
        thrown_instanceofError thrown_message thrown_code thrown_type
        thrown_response List.filter existsb verifySecret_catch
        updateAccountIdIfDifferent getUserByEmail
        InvalidOrExpiredOtpError InvalidOrExpiredOtp_atSession
        OtpExpiredError InvalidOtpFallback ProfilePersistenceError
        AccountAlreadyExistsError UserNotFound] in H.

(** ** Vocabulary of further properties *)

(** What [m] does to the world stays within [R], however it ends. *)
Definition respects {A} (R : World -> World -> Prop) (m : M A) : Prop :=
  forall w, R w (snd (m w)).

Definition same_cookies (w w' : World) : Prop :=
  cookieJar w' = cookieJar w.

(** The fields of a profile other than the identifier on file. *)
Definition core (d : Document) : string * string * string * string :=
  (doc_id d, doc_fullName d, doc_email d, doc_avatar d).

(** [ps'] has the documents of [ps], in their order and with their [$id],
    name, email and avatar, and then possibly more. *)
Definition core_extends (ps ps' : list Document) : Prop :=
  exists more, map core ps' = map core ps ++ more.

Definition keeps_profiles (w w' : World) : Prop :=
  core_extends (profiles w) (profiles w').

(** When [m] throws, the cookie jar is as it was. *)
Definition cookie_safe {A} (m : M A) : Prop :=
  forall w,
    match m w with
    | (Threw _, w') => cookieJar w' = cookieJar w
    | (Returned _, _) => True
    end.

(** Console output, requests to the directory and lookups; no request
    that writes to the users collection. *)
Definition not_a_write (e : Event) : Prop :=
  match e with
  | ToStore (CreateDocument _ _) => False
  | ToStore (UpdateDocument _ _) => False
  | _ => True
  end.

(** The profile [getCurrentUser] finds for the identifier [id] in the
    collection [ps]. *)
Definition first_with_accountId (id : string) (ps : list Document)
  : option Document :=
  head (List.filter (matches (QueryEqual "accountId" [id])) ps).

(** An [Error] with a message to show. *)
Definition is_Error_with_message (t : Thrown) : Prop :=
  thrown_instanceofError t = true /\ is_truthy (thrown_message t) = true.

(** The identifier a challenge is requested under when the request is
    made at clock [t] with the hint [hint]: the hint, or else the value of
    [ID.unique()], which is then drawn at [t]. *)
Definition requested_id (env : Env) (t : nat) (hint : option string)
  : string :=
  match truthy hint with
  | Some given => given
  | None => unique_id env t
  end.

(** The clock at which that request is answered. *)
Definition request_clock (t : nat) (hint : option string) : nat :=
  match truthy hint with
  | Some _ => t
  | None => S t
  end.

(** Symbolic execution that keeps the actions called by others folded. *)
Ltac step :=
  cbn -[insert delete lookup includes toLowerCase trim truthy is_truthy
        code_is message_includes message_lower_includes message_or
        thrown_instanceofError thrown_message thrown_code thrown_type
        thrown_response List.filter existsb verifySecret_catch
        updateAccountIdIfDifferent getUserByEmail sendEmailOTP
        getCurrentUser createSessionClient
        InvalidOrExpiredOtpError InvalidOrExpiredOtp_atSession
        OtpExpiredError InvalidOtpFallback ProfilePersistenceError
        AccountAlreadyExistsError UserNotFound].

Ltac step_in H :=
  cbn -[insert delete lookup includes toLowerCase trim truthy is_truthy
        code_is message_includes message_lower_includes message_or
        thrown_instanceofError thrown_message thrown_code thrown_type
        thrown_response List.filter existsb verifySecret_catch
        updateAccountIdIfDifferent getUserByEmail sendEmailOTP
        getCurrentUser createSessionClient
        InvalidOrExpiredOtpError InvalidOrExpiredOtp_atSession
        OtpExpiredError InvalidOtpFallback ProfilePersistenceError
        AccountAlreadyExistsError UserNotFound] in H.

(** [s] is empty or begins with a character that [trim] keeps. *)
Definition starts_nonspace (s : string) : Prop :=
  match s with
  | EmptyString => True
  | String c _ => is_space c = false
  end.

(** * File actions that call the account actions

    From the file of the file actions (among the sources without its
    name): [createQueries], and [getTotalSpaceUsed], which calls
    [getCurrentUser].  Requests to the files collection are answers of the
    environment like the others; the journal, which is the one of the
    account actions, does not keep them. *)

(** [Query.equal], [Query.contains], [Query.or], [Query.limit],
    [Query.orderAsc] and [Query.orderDesc]; the SDK puts a value that is
    not an array into an array of one. *)
#[local] Unset Elimination Schemes.
Inductive FileQuery :=
| Query_equal (attribute : string) (values : list string)
| Query_contains (attribute : string) (values : list string)
| Query_or (queries : list FileQuery)
| Query_limit (limit : Z)
| Query_orderAsc (attribute : string)
| Query_orderDesc (attribute : string).
#[local] Set Elimination Schemes.



(** The keys of [totalSpace] that a file type can be. *)
Inductive FileType := image | document | video | audio | other.

Definition FileType_eqb (a b : FileType) : bool :=
  match a, b with
  | image, image | document, document | video, video
  | audio, audio | other, other => true
  | _, _ => false
  end.

(** What [getTotalSpaceUsed] reads of a document of the files collection.
    Sizes are counts of bytes: integers, far below the bound up to which
    the addition of JavaScript numbers is exact. *)
Record FileDocument := mkFileDocument {
  file_type : FileType;
  file_size : Z;
  file_updatedAt : string         (* $updatedAt *)
}.

Record Usage := mkUsage {
  usage_size : Z;                 (* size *)
  latestDate : string
}.

(** [totalSpace]; [category ts t] is [totalSpace[t]]. *)
Record TotalSpace := mkTotalSpace {
  category : FileType -> Usage;
  used : Z;
  all : Z
}.

Definition totalSpace_initial : TotalSpace :=
  {| category := fun _ => {| usage_size := 0; latestDate := "" |};
     used := 0;
     all := (2 * 1024 * 1024 * 1024)%Z |}.

(** [totalSpace[t] = u] *)
Definition set_category (ts : TotalSpace) (t : FileType) (u : Usage)
  : TotalSpace :=
  {| category := fun t' => if FileType_eqb t' t then u else category ts t';
     used := used ts;
     all := all ts |}.


Definition of_type (t : FileType) (files : list FileDocument)
  : list FileDocument :=
  List.filter (fun f => FileType_eqb (file_type f) t) files.

Section FileActions.

Variable env : Env.

(** [new Date(s).getTime()], with [None] for the time of an invalid
    date. *)
Variable Date_getTime : string -> option Z.

(** The answers of the files collection to [listDocuments]. *)
Variable listFiles_reply : nat -> list FileQuery -> Reply (list FileDocument).

(** [new Date(a) > new Date(b)]: false when either date is invalid. *)
Definition Date_gt (a b : string) : bool :=
  match Date_getTime a, Date_getTime b with
  | Some x, Some y => (y <? x)%Z
  | _, _ => false
  end.

(** The latest date of the type [t] after the files [seen]: empty when
    none of them has the type, otherwise the date of one that has it and
    that none of them of that type is later than. *)
Definition latest_of (t : FileType) (seen : list FileDocument)
    (date : string) : Prop :=
  (of_type t seen = [] /\ date = "")
  \/ exists f, In f seen /\ file_type f = t /\ date = file_updatedAt f
       /\ forall g, In g seen -> file_type g = t ->
            Date_gt (file_updatedAt g) (file_updatedAt f) = false.

(** The body of the [forEach] of [getTotalSpaceUsed]. *)
Definition count_file (totalSpace : TotalSpace) (file : FileDocument)
  : TotalSpace :=
  let fileType := file_type file in
  let totalSpace :=
    set_category totalSpace fileType
      {| usage_size := usage_size (category totalSpace fileType)
                       + file_size file;
         latestDate := latestDate (category totalSpace fileType) |} in
  let totalSpace :=
    {| category := category totalSpace;
       used := used totalSpace + file_size file;
       all := all totalSpace |} in
  if negb (is_truthy (Some (latestDate (category totalSpace fileType))))
     || Date_gt (file_updatedAt file)
          (latestDate (category totalSpace fileType))
  then
    set_category totalSpace fileType
      {| usage_size := usage_size (category totalSpace fileType);
         latestDate := file_updatedAt file |}
  else totalSpace.

(** [databases.listDocuments(databaseId, filesCollectionId, queries)];
    the action reads [documents] of the answer. *)
Definition files_listDocuments (queries : list FileQuery)
  : M (list FileDocument) :=
  fun w => of_reply (listFiles_reply (clock w) queries) (ticked w).

Definition getTotalSpaceUsed : M TotalSpace :=
  try_catch
    (let* _ := createSessionClient env in
     let* currentUser := getCurrentUser env in
     match currentUser with
     | None => throw (Exn (new_Error "User is not authenticated."))
     | Some currentUser =>
         let* files :=
           files_listDocuments [Query_equal "owner" [doc_id currentUser]] in
         ret (parseStringify (fold_left count_file files totalSpace_initial))
     end)
    (fun error => handleError error "Error calculating total space used:, ").

End FileActions.



(** ** More scenarios *)

(** The directory fails every request for a challenge with [e]. *)
Definition with_createEmailToken_failure (e : JsError) (base : Env) : Env :=
  {| avatarPlaceholderUrl := avatarPlaceholderUrl base;
     production := production base;
     unique_id := unique_id base;
     createEmailToken_reply := fun _ _ _ => Fail e;
     createSession_reply := createSession_reply base;
     get_reply := get_reply base;
     deleteSession_reply := deleteSession_reply base;
     sessionClient_reply := sessionClient_reply base;
     arrivals := arrivals base;
     fault := fault base |}.

(** The directory fails to identify any session, with [e]. *)
Definition with_get_failure (e : JsError) (base : Env) : Env :=
  {| avatarPlaceholderUrl := avatarPlaceholderUrl base;
     production := production base;
     unique_id := unique_id base;
     createEmailToken_reply := createEmailToken_reply base;
     createSession_reply := createSession_reply base;
     get_reply := fun _ _ => Fail e;
     deleteSession_reply := deleteSession_reply base;
     sessionClient_reply := sessionClient_reply base;
     arrivals := arrivals base;
     fault := fault base |}.

(** The directory knows the email under [id] and confirms that identifier
    whatever the challenge is requested under. *)
Definition with_confirmed_id (id : string) (base : Env) : Env :=
  {| avatarPlaceholderUrl := avatarPlaceholderUrl base;
     production := production base;
     unique_id := unique_id base;
     createEmailToken_reply := fun _ _ _ =>
       Ok {| token_userId := Some id; token_secret := "" |};
     createSession_reply := createSession_reply base;
     get_reply := get_reply base;
     deleteSession_reply := deleteSession_reply base;
     sessionClient_reply := sessionClient_reply base;
     arrivals := arrivals base;
     fault := fault base |}.

(** The times of three dates, in milliseconds; any other text is not a
    date. *)
Definition january : string := "2024-01-15T10:00:00.000+00:00".
Definition february : string := "2024-02-20T08:30:00.000+00:00".
Definition march : string := "2024-03-01T12:00:00.000+00:00".

Definition time_of (s : string) : option Z :=
  if (s =? january)%string then Some 1705312800000%Z
  else if (s =? february)%string then Some 1708417800000%Z
  else if (s =? march)%string then Some 1709294400000%Z
  else None.

(** Two images and a video, the later image listed first. *)
Definition files_of_ana : list FileDocument :=
  [ {| file_type := image; file_size := 2048; file_updatedAt := february |};
    {| file_type := video; file_size := 1000000; file_updatedAt := march |};
    {| file_type := image; file_size := 512; file_updatedAt := january |} ].

(** A files collection that lists [files_of_ana] for the owner [doc-ana]
    and nothing for any other query. *)
Definition files_listing (t : nat) (queries : list FileQuery)
  : Reply (list FileDocument) :=
  match queries with
  | [Query_equal "owner" ["doc-ana"]] => Ok files_of_ana
  | _ => Ok []
  end.

(** The environments, worlds and answers of the further scenarios. *)
Definition steady : Env := calm "I1".
Definition undeliverable : Env :=
  with_createEmailToken_failure rate_limited (calm "I1").
Definition known_as_I7 : Env := with_confirmed_id "I7" (calm "I1").
Definition store_down_at (n : nat) : Env :=
  with_fault n service_unavailable (calm "I1").
Definition identity_down : Env :=
  with_get_failure service_unavailable (calm "I1").

Definition empty_world : World := world_of [] ∅.
Definition ana_on_file : World := world_of [ana (Some "I1")] ∅.
Definition ana_signed_in : World := world_of [ana (Some "I1")] signed_in.
Definition stranger_signed_in : World := world_of [] signed_in.
Definition two_profiles_signed_in : World :=
  world_of [ana (Some "I2"); ana (Some "I1")] signed_in.

Definition token_I7 : Token :=
  {| token_userId := Some "I7"; token_secret := "" |}.
Definition session_1 : Session :=
  {| session_id := "session-1"; secret := "secret-1" |}.
Definition account_I1 : AccountInfo := {| account_id := "I1" |}.
Definition sign_up_of_ana : CreateAccountResult :=
  {| ca_accountId := "unique-1"; ca_fullName := "Ana";
     ca_email := "ana@x.com" |}.

(** * Properties *)

(** ** Strings *)

Lemma prefix_app_weaken a b h :
  String.prefix (a +:+ b) h = true -> String.prefix a h = true.
Proof.
  revert h. induction a as [|c a IH]; intros h H; [now destruct h|].
  destruct h as [|c' h]; simpl in *; [discriminate|].
  destruct (ascii_dec c c'); [auto | discriminate].
Qed.

Lemma includes_unfold hay n :
  includes hay n =
  String.prefix n hay
  || match hay with
     | EmptyString => false
     | String _ rest => includes rest n
     end.
Proof.
  destruct hay as [|c rest]; simpl.
  - now destruct (String.prefix n EmptyString).
  - now destruct (String.prefix n (String c rest)).
Qed.

Lemma includes_app_weaken a b hay :
  includes hay (a +:+ b) = true -> includes hay a = true.
Proof.
  induction hay as [|c hay IH];
    rewrite (includes_unfold _ (a +:+ b)), (includes_unfold _ a); intros H;
    apply orb_true_iff in H; apply orb_true_iff;
    destruct H as [H|H]; try discriminate.
  - left. exact (prefix_app_weaken _ _ _ H).
  - left. exact (prefix_app_weaken _ _ _ H).
  - right. auto.
Qed.

Lemma prefix_toLowerCase n h :
  String.prefix n h = true ->
  String.prefix (toLowerCase n) (toLowerCase h) = true.
Proof.
  revert h. induction n as [|c n IH]; intros h H; [now destruct h|].
  destruct h as [|c' h]; simpl in *; [discriminate|].
  destruct (ascii_dec c c') as [->|]; [|discriminate].
  destruct (ascii_dec (lower_ascii c') (lower_ascii c')); [auto | congruence].
Qed.

Lemma includes_toLowerCase hay n :
  includes hay n = true ->
  includes (toLowerCase hay) (toLowerCase n) = true.
Proof.
  induction hay as [|c hay IH];
    rewrite (includes_unfold _ n), (includes_unfold _ (toLowerCase n));
    intros H; apply orb_true_iff in H; apply orb_true_iff;
    destruct H as [H|H]; try discriminate.
  - left. now apply (prefix_toLowerCase n "").
  - left. now apply (prefix_toLowerCase n (String c hay)).
  - right. simpl. auto.
Qed.

Example includes_examples :
  includes "Invalid token passed in the request." "Invalid" = true /\
  includes "fetch failed" "Invalid" = false /\
  toLowerCase " Ana@X.com " = " ana@x.com " /\
  trim "  Ana Lee " = "Ana Lee" /\
  trim "   " = "".
Proof. repeat split; reflexivity. Qed.

(** ** Journals and frames *)

Lemma directoryCalls_app l1 l2 :
  directoryCalls (l1 ++ l2) = directoryCalls l1 ++ directoryCalls l2.
Proof.
  induction l1 as [|[ | |] l1 IH]; simpl; congruence.
Qed.

Lemma storeCalls_app l1 l2 :
  storeCalls (l1 ++ l2) = storeCalls l1 ++ storeCalls l2.
Proof.
  induction l1 as [|[ | |] l1 IH]; simpl; congruence.
Qed.

Lemma only_logged_refl w : only_logged w w.
Proof. repeat split. Qed.

Lemma only_logged_trans w1 w2 w3 :
  only_logged w1 w2 -> only_logged w2 w3 -> only_logged w1 w3.
Proof.
  unfold only_logged. intros (?&?&?&?&?) (?&?&?&?&?).
  repeat split; congruence.
Qed.

Lemma only_logged_record level args w :
  only_logged w (record (Console level args) w).
Proof.
  repeat split; simpl;
    rewrite ?directoryCalls_app, ?storeCalls_app; simpl;
    now rewrite app_nil_r.
Qed.


Section Properties.

Variable env : Env.

(** The hypotheses below name the answers of the environment by their
    place after the clock of the starting world [w].  In [verifySecret]:
    session creation at [clock w], "who am I" at [1 + clock w], the lookup
    by email at [2 + clock w]; then either the update at [3 + clock w], or
    [ID.unique()] at [3 + clock w], the creation at [4 + clock w] and,
    when that fails, the second lookup at [5 + clock w] and the update at
    [6 + clock w]. *)

(** ** The [catch] of [verifySecret] *)

(** It never returns, and it only prints. *)
Lemma verifySecret_catch_throws A error w :
  exists t w',
    @verifySecret_catch A error w = (Threw t, w') /\ only_logged w w'.
Proof.
  unfold verifySecret_catch, bind, console_error, throw.
  destruct (code_is error 401 || _ || _);
    [|destruct (message_includes error "expired");
      [|destruct (thrown_instanceofError error && _)]];
    eexists; eexists; (split; [reflexivity|]);
    repeat (eapply only_logged_trans; [|apply only_logged_record]);
    apply only_logged_refl.
Qed.

(** What it throws does not depend on the world. *)
Lemma verifySecret_catch_same A error w1 w2 :
  fst (@verifySecret_catch A error w1) = fst (@verifySecret_catch A error w2).
Proof.
  unfold verifySecret_catch, bind, console_error, throw.
  destruct (code_is error 401 || _ || _);
    [|destruct (message_includes error "expired");
      [|destruct (thrown_instanceofError error && _)]];
    reflexivity.
Qed.

Lemma verifySecret_catch_invalid A error w :
  code_is error 401 || message_lower_includes error "invalid" = true ->
  fst (@verifySecret_catch A error w)
  = Threw (Exn (new_Error InvalidOrExpiredOtpError)).
Proof.
  intros H. unfold verifySecret_catch, bind, console_error, throw.
  destruct (code_is error 401); simpl in *; [reflexivity|].
  rewrite H, orb_true_r. reflexivity.
Qed.

Lemma lower_invalid_token_false error :
  message_lower_includes error "invalid" = false ->
  message_lower_includes error "invalid token" = false.
Proof.
  unfold message_lower_includes. destruct (thrown_message error); auto.
  intros H. destruct (includes _ "invalid token") eqn:E; auto.
  apply (includes_app_weaken "invalid" " token") in E. congruence.
Qed.

(** The classification at session creation (line 127) is covered by the
    one of the [catch] (line 239). *)
Lemma atSession_covered e :
  indicates_invalid_token e = false ->
  code_is (Exn e) 401 || message_includes (Exn e) "Invalid token"
  || message_includes (Exn e) "Invalid" = false.
Proof.
  unfold indicates_invalid_token. intros H.
  apply orb_false_iff in H as [Hc Hl]. rewrite Hc. simpl.
  assert (Hi : message_includes (Exn e) "Invalid" = false).
  { unfold message_includes, message_lower_includes in *.
    destruct (thrown_message (Exn e)); auto.
    destruct (includes s "Invalid") eqn:E; auto.
    apply includes_toLowerCase in E.
    change (toLowerCase "Invalid") with "invalid" in E. congruence. }
  rewrite Hi, orb_false_r.
  unfold message_includes in *. destruct (thrown_message (Exn e)); auto.
  destruct (includes s "Invalid token") eqn:E; auto.
  apply (includes_app_weaken "Invalid" " token") in E. congruence.
Qed.

Lemma verifySecret_catch_other A e w :
  indicates_invalid_token e = false ->
  fst (@verifySecret_catch A (Exn e) w)
  = if message_includes (Exn e) "expired"
    then Threw (Exn (new_Error OtpExpiredError))
    else if instanceofError e && is_truthy (message e)
    then Threw (Exn e)
    else Threw (Exn (new_Error (message_or (Exn e) InvalidOtpFallback))).
Proof.
  intros H. unfold indicates_invalid_token in H.
  apply orb_false_iff in H as [Hc Hl].
  unfold verifySecret_catch, bind, console_error, throw.
  rewrite Hc, Hl, (lower_invalid_token_false _ Hl). simpl.
  destruct (message_includes (Exn e) "expired"); [reflexivity|].
  now destruct (instanceofError e && is_truthy (message e)).
Qed.

(** ** Session creation fails *)

(** The world in which the [catch] of [verifySecret] starts when session
    creation has failed with [e]. *)
Lemma verifySecret_session_failure w accountId password fullName email e :
  createSession_reply env (clock w) accountId password = Fail e ->
  exists w1,
    verifySecret env accountId password fullName email w
    = verifySecret_catch
        (if code_is (Exn e) 401
            || message_includes (Exn e) "Invalid token"
            || message_includes (Exn e) "Invalid"
         then Exn (new_Error InvalidOrExpiredOtp_atSession)
         else Exn e) w1
    /\ profiles w1 = profiles w /\ cookieJar w1 = cookieJar w
    /\ storeCalls (journal w1) = storeCalls (journal w)
    /\ directoryCalls (journal w1)
       = directoryCalls (journal w) ++ [CreateSession accountId password].
Proof.
  intros Hs. eexists. split.
  - unfold verifySecret, try_catch, bind, account_createSession. run.
    rewrite Hs. run.
    destruct (code_is (Exn e) 401 || _ || _); reflexivity.
  - simpl. rewrite !storeCalls_app, !directoryCalls_app. simpl.
    now rewrite !app_nil_r.
Qed.

(** C3: a verification whose passcode the directory rejects as invalid or
    expired creates no Profile Record, leaves the users collection as it
    was, sends it no request, does not set the session cookie, and fails
    with the [InvalidOrExpiredOtpError] message. *)
Theorem verifySecret_rejected_passcode w accountId password fullName email e :
  createSession_reply env (clock w) accountId password = Fail e ->
  indicates_invalid_token e = true ->
  exists w',
    verifySecret env accountId password fullName email w
    = (Threw (Exn (new_Error InvalidOrExpiredOtpError)), w')
    /\ profiles w' = profiles w
    /\ cookieJar w' = cookieJar w
    /\ storeCalls (journal w') = storeCalls (journal w).
Proof.
  intros Hs He.
  destruct (verifySecret_session_failure w accountId password fullName email
              e Hs) as (w1 & Hrun & Hp & Hc & Hst & _).
  rewrite Hrun.
  destruct (verifySecret_catch_throws VerifyResult
              (if code_is (Exn e) 401
                  || message_includes (Exn e) "Invalid token"
                  || message_includes (Exn e) "Invalid"
               then Exn (new_Error InvalidOrExpiredOtp_atSession)
               else Exn e) w1) as (t & w' & Hcatch & (_ & Hp' & Hc' & _ & Hst')).
  exists w'. rewrite Hcatch. repeat split; try congruence.
  f_equal. f_equal.
  assert (Hfst : fst (@verifySecret_catch VerifyResult
              (if code_is (Exn e) 401
                  || message_includes (Exn e) "Invalid token"
                  || message_includes (Exn e) "Invalid"
               then Exn (new_Error InvalidOrExpiredOtp_atSession)
               else Exn e) w1) = Threw t) by now rewrite Hcatch.
  rewrite verifySecret_catch_invalid in Hfst; [congruence|].
  destruct (code_is (Exn e) 401 || _ || _); [reflexivity | exact He].
Qed.

(** C9, as the code has it: a failure of session creation with status 401
    or with "invalid" in its message becomes [InvalidOrExpiredOtpError];
    of the others, one with "expired" in its message becomes
    [OtpExpiredError], an [Error] with a message is thrown on as it is, a
    value that is not an [Error] is wrapped in a new [Error] with its
    message, and one without a message becomes [InvalidOtpFallback]. *)
Theorem verifySecret_session_error_surfaced
    w accountId password fullName email e :
  createSession_reply env (clock w) accountId password = Fail e ->
  let thrown := fst (verifySecret env accountId password fullName email w) in
  (indicates_invalid_token e = true ->
   thrown = Threw (Exn (new_Error InvalidOrExpiredOtpError)))
  /\ (indicates_invalid_token e = false ->
      message_includes (Exn e) "expired" = true ->
      thrown = Threw (Exn (new_Error OtpExpiredError)))
  /\ (indicates_invalid_token e = false ->
      message_includes (Exn e) "expired" = false ->
      instanceofError e = true -> is_truthy (message e) = true ->
      thrown = Threw (Exn e))
  /\ (indicates_invalid_token e = false ->
      message_includes (Exn e) "expired" = false ->
      instanceofError e = false ->
      forall m, truthy (message e) = Some m ->
      thrown = Threw (Exn (new_Error m)))
  /\ (indicates_invalid_token e = false ->
      message_includes (Exn e) "expired" = false ->
      is_truthy (message e) = false ->
      thrown = Threw (Exn (new_Error InvalidOtpFallback))).
Proof.
  intros Hs thrown.
  destruct (verifySecret_session_failure w accountId password fullName email
              e Hs) as (w1 & Hrun & _).
  subst thrown. rewrite Hrun. clear Hrun.
  split; [|repeat split; intros Hi; rewrite (atSession_covered e Hi);
           rewrite (verifySecret_catch_other _ e w1 Hi)].
  - intros Hi. apply verifySecret_catch_invalid.
    destruct (code_is (Exn e) 401 || _ || _); [reflexivity | exact Hi].
  - now intros ->.
  - now intros -> -> ->.
  - intros -> -> m Hm. unfold message_or. simpl. now rewrite Hm.
  - intros -> Ht. rewrite Ht, andb_false_r.
    unfold message_or, is_truthy in *. simpl.
    now destruct (truthy (message e)).
Qed.

(** ** Lookups *)

Lemma getUserByEmail_served email w :
  fault env (clock w) = None ->
  getUserByEmail env email w
  = (Returned (first_with_email email (served env w)),
     asked (ToStore (ListDocuments (QueryEqual "email" [email])))
       (with_profiles (served env w) w)).
Proof.
  intros Hf.
  unfold getUserByEmail, bind, createAdminClient, ret,
    databases_listDocuments, store_request, first_with_email.
  rewrite Hf. simpl.
  now destruct (List.filter _ (served env w)).
Qed.

Lemma getUserByEmail_fault email w e :
  fault env (clock w) = Some e ->
  getUserByEmail env email w
  = (Threw (Exn e),
     asked (ToStore (ListDocuments (QueryEqual "email" [email])))
       (with_profiles (served env w) w)).
Proof.
  intros Hf.
  unfold getUserByEmail, bind, createAdminClient, ret,
    databases_listDocuments, store_request.
  now rewrite Hf.
Qed.


(** C7: sign-in initiation for an email whose lookup finds no profile
    returns the not-found result, with a null [accountId], and throws
    nothing; no challenge is requested. *)
Theorem signInUser_unknown_email w email :
  fault env (clock w) = None ->
  first_with_email email (served env w) = None ->
  exists w',
    signInUser env email w
    = (Returned {| si_accountId := None; si_error := Some UserNotFound |}, w')
    /\ directoryCalls (journal w') = directoryCalls (journal w).
Proof.
  intros Hf Hd. eexists. split.
  - unfold signInUser, try_catch, bind at 1.
    rewrite (getUserByEmail_served email w Hf), Hd. reflexivity.
  - simpl. rewrite !directoryCalls_app. simpl. now rewrite !app_nil_r.
Qed.

(** ** Verification *)

(** C10: a verification without an email sends no request to the Profile
    Store and leaves the users collection as it was, whatever identifier a
    profile has on file; the session cookie is set and the call succeeds
    with the resolved identifier. *)
Theorem verifySecret_without_email w accountId password fullName email s info :
  truthy email = None ->
  createSession_reply env (clock w) accountId password = Ok s ->
  get_reply env (1 + clock w) (SessionSecret (secret s)) = Ok info ->
  exists w',
    verifySecret env accountId password fullName email w
    = (Returned {| sessionId := session_id s; success := true;
                   vr_accountId := account_id info |}, w')
    /\ profiles w' = profiles w
    /\ storeCalls (journal w') = storeCalls (journal w)
    /\ cookieJar w'
       = <["appwrite-session" :=
             session_cookie (secret s) (production env)]> (cookieJar w).
Proof.
  intros He Hs Hg. simpl in Hg. eexists. split.
  - unfold verifySecret, try_catch, bind, account_createSession, account_get.
    run. rewrite Hs. run. rewrite Hg. run. rewrite He. run.
    destruct (truthy fullName); reflexivity.
  - run. rewrite !storeCalls_app. simpl. now rewrite !app_nil_r.
Qed.

(** ** Reconciliation of the identifier on file *)

Lemma first_with_email_In email ps d :
  first_with_email email ps = Some d -> In d ps /\ doc_email d = email.
Proof.
  unfold first_with_email. intros H.
  assert (Hin : In d (List.filter (matches (QueryEqual "email" [email])) ps)).
  { destruct (List.filter _ ps); simpl in H; [discriminate|].
    inversion H. now left. }
  apply List.filter_In in Hin as [Hin Hm]. split; [exact Hin|].
  simpl in Hm. rewrite orb_false_r in Hm. now apply String.eqb_eq.
Qed.

Lemma first_with_email_app email ps more d :
  first_with_email email ps = Some d ->
  first_with_email email (ps ++ more) = Some d.
Proof.
  unfold first_with_email. rewrite List.filter_app.
  now destruct (List.filter _ ps).
Qed.

Lemma matches_email_patch email id actual d :
  matches (QueryEqual "email" [email]) (patch_accountId id actual d)
  = matches (QueryEqual "email" [email]) d.
Proof. unfold patch_accountId. now destruct (has_id id d). Qed.

Lemma first_with_email_patch email id actual ps :
  first_with_email email (map (patch_accountId id actual) ps)
  = option_map (patch_accountId id actual) (first_with_email email ps).
Proof.
  unfold first_with_email.
  induction ps as [|d ps IH]; [reflexivity|].
  cbn [map List.filter]. rewrite matches_email_patch.
  now destruct (matches _ d).
Qed.

Lemma has_id_In d ps : In d ps -> existsb (has_id (doc_id d)) ps = true.
Proof.
  intros Hin. apply existsb_exists. exists d. split; [exact Hin|].
  apply String.eqb_refl.
Qed.

(** The update is attempted when the identifier on file is present and
    differs, and the action goes on whether or not the store accepts it. *)
Lemma updateAccountIdIfDifferent_stale done d actual cur w :
  truthy (doc_accountId d) = Some cur ->
  cur <> actual ->
  In d (served env w) ->
  exists w',
    updateAccountIdIfDifferent env done d actual w = (Returned tt, w')
    /\ clock w' = S (clock w)
    /\ cookieJar w' = cookieJar w
    /\ directoryCalls (journal w') = directoryCalls (journal w)
    /\ storeCalls (journal w')
       = storeCalls (journal w) ++ [UpdateDocument (doc_id d) actual]
    /\ profiles w'
       = match fault env (clock w) with
         | None => map (patch_accountId (doc_id d) actual) (served env w)
         | Some _ => served env w
         end.
Proof.
  intros Hcur Hne Hin.
  unfold updateAccountIdIfDifferent. rewrite Hcur.
  apply String.eqb_neq in Hne. rewrite Hne.
  unfold try_catch, bind, databases_updateDocument, store_request.
  cbn [negb]. cbv beta iota.
  destruct (fault env (clock w)); [|rewrite (has_id_In d _ Hin)];
    eexists; (split; [reflexivity|]); simpl;
    rewrite !directoryCalls_app, !storeCalls_app; simpl;
    rewrite ?app_nil_r; repeat split; reflexivity.
Qed.

(** Nothing is sent when no identifier is on file or it is the resolved
    one. *)
Lemma updateAccountIdIfDifferent_skip done d actual w :
  truthy (doc_accountId d) = None
  \/ truthy (doc_accountId d) = Some actual ->
  updateAccountIdIfDifferent env done d actual w = (Returned tt, w).
Proof.
  unfold updateAccountIdIfDifferent. intros [-> | ->]; [reflexivity|].
  now rewrite String.eqb_refl.
Qed.

(** C2, as the code has it: when the lookup by the supplied email finds a
    profile whose identifier on file is present (not null, not empty) and
    differs from the resolved one, the update to the resolved identifier
    is requested and the verification succeeds with the cookie set; the
    profile carries the resolved identifier when the store accepts the
    update, and the verification succeeds just the same when it does
    not. *)
Theorem verifySecret_updates_stale_identifier
    w accountId password fullName email address d cur s info :
  createSession_reply env (clock w) accountId password = Ok s ->
  get_reply env (1 + clock w) (SessionSecret (secret s)) = Ok info ->
  truthy email = Some address ->
  fault env (2 + clock w) = None ->
  first_with_email address (profiles w ++ arrivals env (2 + clock w))
  = Some d ->
  truthy (doc_accountId d) = Some cur ->
  cur <> account_id info ->
  exists w',
    verifySecret env accountId password fullName email w
    = (Returned {| sessionId := session_id s; success := true;
                   vr_accountId := account_id info |}, w')
    /\ cookieJar w'
       = <["appwrite-session" :=
             session_cookie (secret s) (production env)]> (cookieJar w)
    /\ storeCalls (journal w')
       = storeCalls (journal w)
         ++ [ListDocuments (QueryEqual "email" [address]);
             UpdateDocument (doc_id d) (account_id info)]
    /\ let found :=
         (profiles w ++ arrivals env (2 + clock w))
         ++ arrivals env (3 + clock w) in
       match fault env (3 + clock w) with
       | None =>
           profiles w'
           = map (patch_accountId (doc_id d) (account_id info)) found
           /\ first_with_email address (profiles w')
              = Some {| doc_id := doc_id d; doc_fullName := doc_fullName d;
                        doc_email := doc_email d; doc_avatar := doc_avatar d;
                        doc_accountId := Some (account_id info) |}
       | Some _ => profiles w' = found
       end.
Proof.
  intros Hs Hg He Hf Hd Hcur Hne. simpl in Hg, Hf, Hd.
  set (w2 := asked (ToStore (ListDocuments (QueryEqual "email" [address])))
    (with_profiles (profiles w ++ arrivals env (S (S (clock w))))
      (record (Console LevelLog
                 [LStr "Session created successfully, actual accountId:";
                  LStr (account_id info); LStr "original accountId:";
                  LStr accountId])
        (asked (ToDirectory (AccountGet (SessionSecret (secret s))))
          (asked (ToDirectory (CreateSession accountId password))
            (record (Console LevelLog
                       [LStr "Verifying OTP for userId:"; LStr accountId;
                        LStr "email:"; LOpt email]) w)))))).
  destruct (first_with_email_In _ _ _ Hd) as [Hin _].
  destruct (updateAccountIdIfDifferent_stale
              "Updated accountId in database for existing user"
              d (account_id info) cur w2 Hcur Hne)
    as (w3 & Hup & Hclock & Hjar & _ & Hcalls & Hprof).
  { unfold served. simpl. apply in_or_app. now left. }
  eexists. split; [|split; [|split]].
  - unfold verifySecret, try_catch, bind, account_createSession, account_get.
    run. rewrite Hs. run. rewrite Hg. run. rewrite He.
    rewrite getUserByEmail_served by exact Hf.
    unfold served. run. rewrite Hd. fold w2. rewrite Hup. reflexivity.
  - run. now rewrite Hjar.
  - run. rewrite !storeCalls_app, Hcalls. simpl.
    rewrite !storeCalls_app. simpl. rewrite !app_nil_r.
    now rewrite <- app_assoc.
  - run. rewrite Hprof. unfold served. simpl.
    destruct (fault env (S (S (S (clock w))))); [reflexivity|].
    split; [reflexivity|].
    rewrite first_with_email_patch,
      (first_with_email_app _ _ _ _ Hd). simpl.
    unfold patch_accountId, has_id. now rewrite String.eqb_refl.
Qed.

(** ** What an action may add to the journal *)

Section Emits.

Variable P : Event -> Prop.

Lemma emits_ret A (a : A) : emits P (ret a).
Proof. intros w. exists []. simpl. now rewrite app_nil_r. Qed.

Lemma emits_throw A t : emits P (@throw A t).
Proof. intros w. exists []. simpl. now rewrite app_nil_r. Qed.

Lemma emits_bind A B (m : M A) (k : A -> M B) :
  emits P m -> (forall a, emits P (k a)) -> emits P (bind m k).
Proof.
  intros Hm Hk w. unfold bind. destruct (Hm w) as (l1 & E1 & F1).
  destruct (m w) as [[a|t] w1]; simpl in *.
  - destruct (Hk a w1) as (l2 & E2 & F2). exists (l1 ++ l2).
    rewrite E2, E1, app_assoc. split; [reflexivity|].
    apply Forall_app. now split.
  - now exists l1.
Qed.

Lemma emits_try_catch A (m : M A) (h : Thrown -> M A) :
  emits P m -> (forall t, emits P (h t)) -> emits P (try_catch m h).
Proof.
  intros Hm Hh w. unfold try_catch. destruct (Hm w) as (l1 & E1 & F1).
  destruct (m w) as [[a|t] w1]; simpl in *.
  - now exists l1.
  - destruct (Hh t w1) as (l2 & E2 & F2). exists (l1 ++ l2).
    rewrite E2, E1, app_assoc. split; [reflexivity|].
    apply Forall_app. now split.
Qed.

Lemma emits_try_finally A (m : M A) (fin : M unit) :
  emits P m -> emits P fin -> emits P (try_finally m fin).
Proof.
  intros Hm Hf w. unfold try_finally. destruct (Hm w) as (l1 & E1 & F1).
  destruct (m w) as [r w1]; simpl in *.
  destruct (Hf w1) as (l2 & E2 & F2).
  destruct (fin w1) as [[u|t] w2]; simpl in *;
    exists (l1 ++ l2); rewrite E2, E1, app_assoc;
    (split; [reflexivity|]); apply Forall_app; now split.
Qed.

Lemma emits_console_log args :
  P (Console LevelLog args) -> emits P (console_log args).
Proof. intros H w. exists [Console LevelLog args]. simpl. auto. Qed.

Lemma emits_console_warn args :
  P (Console LevelWarn args) -> emits P (console_warn args).
Proof. intros H w. exists [Console LevelWarn args]. simpl. auto. Qed.

Lemma emits_console_error args :
  P (Console LevelError args) -> emits P (console_error args).
Proof. intros H w. exists [Console LevelError args]. simpl. auto. Qed.

Lemma emits_store_request A c serve :
  P (ToStore c) -> emits P (@store_request env A c serve).
Proof.
  intros H w. exists [ToStore c]. split; [|auto].
  unfold store_request. destruct (fault env (clock w)); [reflexivity|].
  destruct (serve (served env w)) as [[a|e] ps]; reflexivity.
Qed.

Lemma emits_cookies_set name c : emits P (cookies_set name c).
Proof. intros w. exists []. simpl. now rewrite app_nil_r. Qed.

Lemma emits_cookies_delete name : emits P (cookies_delete name).
Proof. intros w. exists []. simpl. now rewrite app_nil_r. Qed.

Lemma emits_ID_unique : emits P (ID_unique env).
Proof. intros w. exists []. simpl. now rewrite app_nil_r. Qed.

End Emits.

(** Goals [emits P m] for an [m] put together from the above. *)
Ltac emitting :=
  repeat first
    [ apply emits_ret
    | apply emits_throw
    | apply emits_cookies_set
    | apply emits_cookies_delete
    | apply emits_ID_unique
    | apply emits_console_log; exact I
    | apply emits_console_warn; exact I
    | apply emits_console_error; exact I
    | apply emits_store_request; exact I
    | apply emits_bind; [|intros ?]
    | apply emits_try_catch; [|intros ?]
    | match goal with
      | |- emits _ (match ?x with _ => _ end) => destruct x
      end ].

Lemma getUserByEmail_emits email :
  emits to_store_or_console (getUserByEmail env email).
Proof.
  unfold getUserByEmail, createAdminClient, databases_listDocuments.
  emitting.
Qed.

Lemma updateAccountIdIfDifferent_emits done d actual :
  emits to_store_or_console (updateAccountIdIfDifferent env done d actual).
Proof.
  unfold updateAccountIdIfDifferent, databases_updateDocument. emitting.
Qed.

(** ** Inversion of a run that returns *)

Lemma bind_Returned A B (m : M A) (k : A -> M B) w b w' :
  bind m k w = (Returned b, w') ->
  exists a w1, m w = (Returned a, w1) /\ k a w1 = (Returned b, w').
Proof.
  unfold bind. destruct (m w) as [[a|t] w1]; [eauto | discriminate].
Qed.

Lemma verifySecret_catch_no_return A error w a w' :
  @verifySecret_catch A error w <> (Returned a, w').
Proof.
  destruct (verifySecret_catch_throws A error w) as (t & w1 & E & _).
  rewrite E. discriminate.
Qed.

(** C5: a verification that succeeds has asked the directory who the
    fresh session belongs to, with the secret of that session, and
    answers with the identifier resolved there, whatever identifier it
    was called with; these are its only requests to the directory. *)
Theorem verifySecret_returns_resolved_identifier
    w accountId password fullName email r w' :
  verifySecret env accountId password fullName email w = (Returned r, w') ->
  exists s info,
    createSession_reply env (clock w) accountId password = Ok s
    /\ get_reply env (1 + clock w) (SessionSecret (secret s)) = Ok info
    /\ r = {| sessionId := session_id s; success := true;
              vr_accountId := account_id info |}
    /\ directoryCalls (journal w')
       = directoryCalls (journal w)
         ++ [CreateSession accountId password;
             AccountGet (SessionSecret (secret s))].
Proof.
  unfold verifySecret, try_catch at 1. intros H.
  match type of H with
  | match ?body w with _ => _ end = _ =>
      destruct (body w) as [[r0 | t] w0] eqn:Hbody;
        [|now apply verifySecret_catch_no_return in H]
  end.
  inversion H; subst r0 w0; clear H.
  apply bind_Returned in Hbody as (u1 & wa & Ea & Hbody).
  inversion Ea; subst wa; clear Ea.
  apply bind_Returned in Hbody as (u2 & wb & Eb & Hbody).
  inversion Eb; subst wb; clear Eb.
  apply bind_Returned in Hbody as (s & wc & Ec & Hbody).
  unfold try_catch, account_createSession in Ec. run_in Ec.
  destruct (createSession_reply env (clock w) accountId password)
    as [s0|e] eqn:Hs.
  2:{ run_in Ec.
      destruct (code_is (Exn e) 401 || _ || _); discriminate. }
  run_in Ec. inversion Ec; subst s0 wc; clear Ec.
  apply bind_Returned in Hbody as (info & wd & Ed & Hbody).
  unfold account_get in Ed. run_in Ed.
  destruct (get_reply env (S (clock w)) (SessionSecret (secret s)))
    as [i0|e] eqn:Hg; [|discriminate].
  run_in Ed. inversion Ed; subst i0 wd; clear Ed.
  exists s, info. split; [reflexivity|]. split; [exact Hg|].
  apply bind_Returned in Hbody as (u3 & we & Ee & Hbody).
  inversion Ee; subst we; clear Ee.
  apply bind_Returned in Hbody as (existing & w4 & H4 & Hbody).
  apply bind_Returned in Hbody as (u5 & w5 & H5 & Hbody).
  apply bind_Returned in Hbody as (u6 & w6 & H6 & Hbody).
  apply bind_Returned in Hbody as (u7 & w7 & H7 & Hbody).
  inversion Hbody; subst r w'; clear Hbody.
  split; [reflexivity|].
  inversion H7; subst w7; clear H7. inversion H6; subst w6; clear H6.
  assert (E4 : emits to_store_or_console
            match truthy email with
            | Some email0 => getUserByEmail env email0
            | None => ret None
            end).
  { destruct (truthy email); [apply getUserByEmail_emits | apply emits_ret]. }
  match type of H4 with
  | _ ?w0 = _ => destruct (E4 w0) as (l4 & J4 & F4)
  end.
  rewrite H4 in J4. simpl in J4.
  match type of H5 with
  | ?step w4 = _ =>
      assert (E5 : emits to_store_or_console step)
  end.
  { unfold databases_createDocument.
    emitting; try apply getUserByEmail_emits;
      apply updateAccountIdIfDifferent_emits. }
  destruct (E5 w4) as (l5 & J5 & F5). rewrite H5 in J5. simpl in J5.
  assert (Hnone : forall l, Forall to_store_or_console l ->
                            directoryCalls l = []).
  { induction 1 as [|[ | |] l HP _ IH]; simpl; auto. contradiction. }
  cbn [journal record with_cookieJar].
  rewrite J5, J4, !directoryCalls_app, (Hnone _ F4), (Hnone _ F5).
  cbn [directoryCalls]. rewrite !app_nil_r.
  now rewrite <- app_assoc.
Qed.

(** ** Sign-up *)

Lemma truthy_nonempty s : s <> "" -> truthy (Some s) = Some s.
Proof.
  intros H. unfold truthy. apply String.eqb_neq in H. now rewrite H.
Qed.

(** Sign-up initiation returns only when its lookup found no profile; it
    writes nothing to the users collection. *)
Lemma createAccount_returned w fullName email r w1 :
  createAccount env fullName email w = (Returned r, w1) ->
  fault env (clock w) = None
  /\ first_with_email email (served env w) = None
  /\ profiles w1 = served env w
  /\ storeCalls (journal w1)
     = storeCalls (journal w) ++ [ListDocuments (QueryEqual "email" [email])]
  /\ ca_fullName r = fullName /\ ca_email r = email.
Proof.
  unfold createAccount, try_catch, bind at 1. intros H.
  destruct (fault env (clock w)) as [e|] eqn:Hf.
  { rewrite (getUserByEmail_fault email w e Hf) in H. run_in H.
    destruct (thrown_instanceofError (Exn e)); unfold throw in H;
      discriminate. }
  rewrite (getUserByEmail_served email w Hf) in H.
  destruct (first_with_email email (served env w)) as [d|] eqn:Hd.
  { run_in H. cbn [thrown_instanceofError new_Error instanceofError] in H.
    unfold throw in H. discriminate. }
  split; [reflexivity|]. split; [reflexivity|].
  unfold sendEmailOTP, try_catch, bind, account_createEmailToken in H.
  change (truthy None) with (@None string) in H. run_in H.
  destruct (createEmailToken_reply env (S (S (clock w)))
              (unique_id env (S (clock w))) email) as [token|e].
  2:{ run_in H. cbn [thrown_instanceofError new_Error instanceofError] in H.
      unfold throw in H. discriminate. }
  run_in H.
  destruct (truthy (token_userId token)) as [actual|]; run_in H.
  - destruct (is_truthy (Some actual)); run_in H;
      [|cbn [thrown_instanceofError new_Error instanceofError] in H;
        unfold throw in H; discriminate].
    inversion H; subst r w1; clear H. simpl.
    rewrite !storeCalls_app. simpl. now rewrite !app_nil_r.
  - destruct (is_truthy (Some (unique_id env (S (clock w))))); run_in H;
      [|cbn [thrown_instanceofError new_Error instanceofError] in H;
        unfold throw in H; discriminate].
    inversion H; subst r w1; clear H. simpl.
    rewrite !storeCalls_app. simpl. now rewrite !app_nil_r.
Qed.

(** Sign-up initiation goes through when its lookup finds no profile
    and the directory issues the challenge under the identifier
    [confirmed]. *)
Lemma createAccount_issues_challenge w fullName email token confirmed :
  fault env (clock w) = None ->
  first_with_email email (served env w) = None ->
  createEmailToken_reply env (2 + clock w) (unique_id env (1 + clock w)) email
  = Ok token ->
  truthy (token_userId token) = Some confirmed ->
  exists w1,
    createAccount env fullName email w
    = (Returned {| ca_accountId := confirmed; ca_fullName := fullName;
                   ca_email := email |}, w1)
    /\ clock w1 = 3 + clock w
    /\ profiles w1 = served env w.
Proof.
  intros Hf Hd Ht Hc. simpl in Ht.
  assert (Hne : is_truthy (Some confirmed) = true).
  { unfold is_truthy. destruct (token_userId token) as [u|]; simpl in Hc;
      [|discriminate].
    destruct (u =? "")%string eqn:E; [discriminate|].
    inversion Hc; subst u. simpl. now rewrite E. }
  eexists. split.
  - unfold createAccount, try_catch, bind at 1.
    rewrite (getUserByEmail_served email w Hf), Hd.
    unfold sendEmailOTP, try_catch, bind, account_createEmailToken.
    change (truthy None) with (@None string). run.
    rewrite Ht. run. rewrite Hc. run. rewrite Hne. reflexivity.
  - split; reflexivity.
Qed.

(** C4: after a sign-up initiation for [E] that went through (so its
    lookup found no profile), a verification with a passcode the directory
    accepts, the full name and the email of the sign-up, whose lookup still
    finds no profile and whose creation request the store accepts, adds
    exactly one document to the users collection: email [lower(trim(E))],
    the trimmed full name, the default avatar and the identifier resolved
    from the fresh session. *)
Theorem signUp_then_verify_creates_profile
    w fullName E password r w1 s info :
  fullName <> "" -> E <> "" ->
  createAccount env fullName E w = (Returned r, w1) ->
  createSession_reply env (clock w1) (ca_accountId r) password = Ok s ->
  get_reply env (1 + clock w1) (SessionSecret (secret s)) = Ok info ->
  fault env (2 + clock w1) = None ->
  first_with_email E (profiles w1 ++ arrivals env (2 + clock w1)) = None ->
  fault env (4 + clock w1) = None ->
  let data :=
    {| fullName := trim fullName; email := toLowerCase (trim E);
       avatar := avatarPlaceholderUrl env; accountId := account_id info |} in
  let created :=
    {| doc_id := unique_id env (3 + clock w1);
       doc_fullName := trim fullName; doc_email := toLowerCase (trim E);
       doc_avatar := avatarPlaceholderUrl env;
       doc_accountId := Some (account_id info) |} in
  profiles w1 = profiles w ++ arrivals env (clock w)
  /\ first_with_email E (profiles w1) = None
  /\ exists w2,
       verifySecret env (ca_accountId r) password (Some fullName) (Some E) w1
       = (Returned {| sessionId := session_id s; success := true;
                      vr_accountId := account_id info |}, w2)
       /\ profiles w2
          = ((profiles w1 ++ arrivals env (2 + clock w1))
             ++ arrivals env (4 + clock w1)) ++ [created]
       /\ storeCalls (journal w2)
          = storeCalls (journal w1)
            ++ [ListDocuments (QueryEqual "email" [E]);
                CreateDocument (unique_id env (3 + clock w1)) data]
       /\ cookieJar w2
          = <["appwrite-session" :=
                session_cookie (secret s) (production env)]> (cookieJar w1).
Proof.
  intros Hname Hmail Hinit Hs Hg Hf Hd Hc data created.
  simpl in Hg, Hf, Hd, Hc.
  destruct (createAccount_returned _ _ _ _ _ Hinit)
    as (_ & Hnone & Hp1 & _).
  split; [exact Hp1|]. split; [now rewrite Hp1|].
  eexists. split; [|split; [|split]].
  - unfold verifySecret, try_catch, bind, account_createSession, account_get.
    run. rewrite Hs. run. rewrite Hg. run.
    rewrite (truthy_nonempty E Hmail), (truthy_nonempty fullName Hname).
    rewrite getUserByEmail_served by exact Hf.
    unfold served. run. rewrite Hd.
    unfold databases_createDocument, store_request. run.
    rewrite Hc. reflexivity.
  - reflexivity.
  - run. rewrite !storeCalls_app. simpl. rewrite !app_nil_r.
    now rewrite <- app_assoc.
  - reflexivity.
Qed.

(** ** Creation fails *)



(** ** Sign-out *)

(** C1, as the code has it: once the session client is there, sign-out
    asks the directory to delete the current session, once, and leaves by
    the redirect to the sign-in page whether or not that request fails.
    When it succeeds the session cookie is deleted; when it fails the
    failure is printed and the redirect takes the place of the error. *)
Theorem signOutUser_always_redirects w :
  sessionClient_reply env (clock w) (cookieJar w !! "appwrite-session")
  = Ok tt ->
  exists w',
    signOutUser env w = (Threw (NextRedirect "/sign-in"), w')
    /\ directoryCalls (journal w')
       = directoryCalls (journal w) ++ [DeleteSession RequestSession "current"]
    /\ match deleteSession_reply env (1 + clock w) RequestSession "current"
       with
       | Ok _ => cookieJar w' = delete "appwrite-session" (cookieJar w)
       | Fail e =>
           In (Console LevelLog
                 [LThrown (Exn e); LStr "Failed to sign out user"])
              (journal w')
       end.
Proof.
  intros Hc.
  unfold signOutUser, bind, createSessionClient. rewrite Hc.
  unfold try_finally, try_catch, bind, account_deleteSession, handleError,
    redirect.
  run.
  destruct (deleteSession_reply env (S (clock w)) RequestSession "current")
    as [u|e]; run; eexists; (split; [reflexivity|]); run;
    rewrite !directoryCalls_app; simpl; rewrite ?app_nil_r;
    (split; [reflexivity|]); [reflexivity|].
  apply in_or_app. right. now left.
Qed.

End Properties.

(** ** The properties at the scenarios *)

Lemma verifySecret_rejected_passcode_witness :
  createSession_reply (calm "I1") 0 "I1" "000000" = Fail invalid_token
  /\ indicates_invalid_token invalid_token = true
  /\ exists w',
       verifySecret (calm "I1") "I1" "000000" (Some "Ana") (Some "ana@x.com")
         (world_of [] ∅)
       = (Threw (Exn (new_Error InvalidOrExpiredOtpError)), w')
       /\ profiles w' = []
       /\ cookieJar w' = ∅
       /\ storeCalls (journal w') = [].
Proof.
  split; [reflexivity|]. split; [reflexivity|].
  apply (verifySecret_rejected_passcode (calm "I1") (world_of [] ∅)
           "I1" "000000" (Some "Ana") (Some "ana@x.com") invalid_token);
    reflexivity.
Defined.

(** C9 as stated fails: neither a gateway error without a message nor an
    out-of-date certificate indicates an invalid or expired token, and the
    caller is told "Invalid OTP" for the one and "OTP has expired" for the
    other. *)
Lemma verifySecret_gateway_error_replaced :
  (createSession_reply (with_createSession_failure bad_gateway (calm "I1"))
     0 "I1" "123456" = Fail bad_gateway
   /\ indicates_invalid_token bad_gateway = false
   /\ fst (verifySecret (with_createSession_failure bad_gateway (calm "I1"))
             "I1" "123456" None None (world_of [] ∅))
      = Threw (Exn (new_Error InvalidOtpFallback))
   /\ message (new_Error InvalidOtpFallback) <> message bad_gateway)
  /\ (createSession_reply
        (with_createSession_failure certificate_expired (calm "I1"))
        0 "I1" "123456" = Fail certificate_expired
      /\ indicates_invalid_token certificate_expired = false
      /\ fst (verifySecret
                (with_createSession_failure certificate_expired (calm "I1"))
                "I1" "123456" None None (world_of [] ∅))
         = Threw (Exn (new_Error OtpExpiredError))
      /\ message (new_Error OtpExpiredError) <> message certificate_expired).
Proof.
  repeat split; try reflexivity; discriminate.
Qed.

Lemma verifySecret_session_error_surfaced_witness :
  createSession_reply (with_createSession_failure rate_limited (calm "I1"))
    0 "I1" "123456" = Fail rate_limited
  /\ fst (verifySecret (with_createSession_failure rate_limited (calm "I1"))
            "I1" "123456" None None (world_of [] ∅))
     = Threw (Exn rate_limited).
Proof.
  split; [reflexivity|].
  apply (verifySecret_session_error_surfaced
           (with_createSession_failure rate_limited (calm "I1"))
           (world_of [] ∅) "I1" "123456" None None rate_limited);
    reflexivity.
Defined.

(** C2 as stated fails: the profile of Ana has no identifier on file, or
    the empty one, the directory resolves I2, and the verification
    succeeds without asking for an update; the profile stays as it was. *)
Lemma verifySecret_leaves_absent_identifier :
  (first_with_email "ana@x.com" [ana None] = Some (ana None)
   /\ doc_accountId (ana None) <> Some "I2"
   /\ exists w',
        verifySecret (calm "I2") "I1" "123456" None (Some "ana@x.com")
          (world_of [ana None] ∅)
        = (Returned {| sessionId := "session-1"; success := true;
                       vr_accountId := "I2" |}, w')
        /\ profiles w' = [ana None]
        /\ storeCalls (journal w')
           = [ListDocuments (QueryEqual "email" ["ana@x.com"])])
  /\ (first_with_email "ana@x.com" [ana (Some "")] = Some (ana (Some ""))
      /\ doc_accountId (ana (Some "")) <> Some "I2"
      /\ exists w',
           verifySecret (calm "I2") "I1" "123456" None (Some "ana@x.com")
             (world_of [ana (Some "")] ∅)
           = (Returned {| sessionId := "session-1"; success := true;
                          vr_accountId := "I2" |}, w')
           /\ profiles w' = [ana (Some "")]
           /\ storeCalls (journal w')
              = [ListDocuments (QueryEqual "email" ["ana@x.com"])]).
Proof.
  split; (split; [reflexivity|]); (split; [discriminate|]);
    eexists; (split; [reflexivity|]); split; reflexivity.
Qed.

Lemma verifySecret_updates_stale_identifier_witness :
  first_with_email "ana@x.com" [ana (Some "I1")] = Some (ana (Some "I1"))
  /\ exists w',
       verifySecret (calm "I2") "I1" "123456" None (Some "ana@x.com")
         (world_of [ana (Some "I1")] ∅)
       = (Returned {| sessionId := "session-1"; success := true;
                      vr_accountId := "I2" |}, w')
       /\ profiles w' = [ana (Some "I2")].
Proof.
  split; [reflexivity|].
  destruct (verifySecret_updates_stale_identifier (calm "I2")
              (world_of [ana (Some "I1")] ∅) "I1" "123456" None
              (Some "ana@x.com") "ana@x.com" (ana (Some "I1")) "I1"
              {| session_id := "session-1"; secret := "secret-1" |}
              {| account_id := "I2" |})
    as (w' & Hrun & _ & _ & Hp & _);
    try reflexivity; [discriminate|].
  exists w'. split; [exact Hrun | exact Hp].
Defined.

Lemma verifySecret_returns_resolved_identifier_witness :
  exists s info,
    createSession_reply (calm "I2") 0 "I1" "123456" = Ok s
    /\ get_reply (calm "I2") 1 (SessionSecret (secret s)) = Ok info
    /\ {| sessionId := "session-1"; success := true; vr_accountId := "I2" |}
       = {| sessionId := session_id s; success := true;
            vr_accountId := account_id info |}.
Proof.
  destruct (verifySecret_returns_resolved_identifier (calm "I2")
              (world_of [ana (Some "I1")] ∅) "I1" "123456" None
              (Some "ana@x.com")
              {| sessionId := "session-1"; success := true;
                 vr_accountId := "I2" |}
              (snd (verifySecret (calm "I2") "I1" "123456" None
                      (Some "ana@x.com") (world_of [ana (Some "I1")] ∅))))
    as (s & info & Hs & Hg & Hr & _); [reflexivity|].
  exists s, info. auto.
Defined.


Lemma signInUser_unknown_email_witness :
  first_with_email "bob@x.com" [ana (Some "I1")] = None
  /\ exists w',
       signInUser (calm "I1") "bob@x.com" (world_of [ana (Some "I1")] ∅)
       = (Returned {| si_accountId := None; si_error := Some UserNotFound |},
          w')
       /\ directoryCalls (journal w') = [].
Proof.
  split; [reflexivity|].
  apply (signInUser_unknown_email (calm "I1")
           (world_of [ana (Some "I1")] ∅) "bob@x.com");
    reflexivity.
Defined.

Lemma verifySecret_without_email_witness :
  exists w',
    verifySecret (calm "I2") "I1" "123456" None None
      (world_of [ana (Some "I1")] ∅)
    = (Returned {| sessionId := "session-1"; success := true;
                   vr_accountId := "I2" |}, w')
    /\ profiles w' = [ana (Some "I1")]
    /\ storeCalls (journal w') = []
    /\ cookieJar w'
       = <["appwrite-session" := session_cookie "secret-1" false]> ∅.
Proof.
  apply (verifySecret_without_email (calm "I2")
           (world_of [ana (Some "I1")] ∅) "I1" "123456" None None
           {| session_id := "session-1"; secret := "secret-1" |}
           {| account_id := "I2" |});
    reflexivity.
Defined.

(** C1 as stated fails: the directory cannot delete the session, the
    caller is redirected, and the session cookie is still in the jar. *)
Lemma signOutUser_keeps_cookie_when_deletion_fails :
  deleteSession_reply (with_deleteSession_failure service_unavailable
                         (calm "I1")) 1 RequestSession "current"
  = Fail service_unavailable
  /\ exists w',
       signOutUser (with_deleteSession_failure service_unavailable (calm "I1"))
         (world_of [] signed_in)
       = (Threw (NextRedirect "/sign-in"), w')
       /\ cookieJar w' !! "appwrite-session"
          = Some (session_cookie "secret-1" false).
Proof.
  split; [reflexivity|]. eexists. split; reflexivity.
Qed.

Lemma signOutUser_always_redirects_witness :
  sessionClient_reply (calm "I1") 0 (signed_in !! "appwrite-session") = Ok tt
  /\ exists w',
       signOutUser (calm "I1") (world_of [] signed_in)
       = (Threw (NextRedirect "/sign-in"), w')
       /\ cookieJar w' = delete "appwrite-session" signed_in.
Proof.
  split; [reflexivity|].
  destruct (signOutUser_always_redirects (calm "I1") (world_of [] signed_in))
    as (w' & Hrun & _ & Hjar); [reflexivity|].
  exists w'. split; [exact Hrun | exact Hjar].
Defined.

(** Sign-up of Ana with an email in capitals and with a space after it,
    then verification with the passcode the directory accepts. *)
Lemma signUp_then_verify_creates_profile_witness :
  exists r w1 w2,
    createAccount (calm "I1") "Ana " "Ana@X.com " (world_of [] ∅)
    = (Returned r, w1)
    /\ verifySecret (calm "I1") (ca_accountId r) "123456"
         (Some "Ana ") (Some "Ana@X.com ") w1
       = (Returned {| sessionId := "session-1"; success := true;
                      vr_accountId := "I1" |}, w2)
    /\ profiles w2
       = [{| doc_id := "unique-6"; doc_fullName := "Ana";
             doc_email := "ana@x.com";
             doc_avatar := "/assets/images/avatar.png";
             doc_accountId := Some "I1" |}].
Proof.
  pose (r := {| ca_accountId := "unique-1"; ca_fullName := "Ana ";
                ca_email := "Ana@X.com " |}).
  pose (w1 := snd (createAccount (calm "I1") "Ana " "Ana@X.com "
                     (world_of [] ∅))).
  destruct (signUp_then_verify_creates_profile (calm "I1") (world_of [] ∅)
              "Ana " "Ana@X.com " "123456" r w1
              {| session_id := "session-1"; secret := "secret-1" |}
              {| account_id := "I1" |})
    as (_ & _ & w2 & Hrun & Hp & _);
    try reflexivity; try discriminate.
  exists r, w1, w2. split; [reflexivity|]. split; [exact Hrun | exact Hp].
Defined.


(** When the lookup after a failed creation finds nothing, the message of
    [ProfilePersistenceError] reaches the caller, unless it reads as an
    invalid passcode: a rejection of the document by the schema of the
    collection does. *)
Example verifySecret_persistence_error_scenarios :
  fst (verifySecret (with_fault 4 service_unavailable (calm "I1"))
         "I1" "123456" (Some "Ana") (Some "ana@x.com") (world_of [] ∅))
  = Threw (Exn (new_Error (ProfilePersistenceError "Service unavailable")))
  /\ fst (verifySecret
            (with_fault 4
               {| instanceofError := true; code := Some 400%Z;
                  message := Some "Invalid document structure: Unknown attribute: accountId";
                  type := Some "document_invalid_structure";
                  response := None |}
               (calm "I1"))
            "I1" "123456" (Some "Ana") (Some "ana@x.com") (world_of [] ∅))
     = Threw (Exn (new_Error InvalidOrExpiredOtpError)).
Proof. split; reflexivity. Qed.

(** * Further properties of the actions *)

(** ** What an action respects *)

Section Respects.

Variable env : Env.
Variable R : World -> World -> Prop.
Hypothesis R_refl : forall w, R w w.
Hypothesis R_trans : forall w1 w2 w3, R w1 w2 -> R w2 w3 -> R w1 w3.
Hypothesis R_record : forall e w, R w (record e w).
Hypothesis R_asked : forall e w, R w (asked e w).
Hypothesis R_ticked : forall w, R w (ticked w).
Hypothesis R_profiles :
  forall ps w, core_extends (profiles w) ps -> R w (with_profiles ps w).

Lemma respects_ret A (a : A) : respects R (ret a).
Proof. intros w. apply R_refl. Qed.

Lemma respects_throw A t : respects R (@throw A t).
Proof. intros w. apply R_refl. Qed.

Lemma respects_bind A B (m : M A) (k : A -> M B) :
  respects R m -> (forall a, respects R (k a)) -> respects R (bind m k).
Proof.
  intros Hm Hk w. unfold bind. specialize (Hm w).
  destruct (m w) as [[a|t] w1]; simpl in *; [|exact Hm].
  exact (R_trans _ _ _ Hm (Hk a w1)).
Qed.

Lemma respects_try_catch A (m : M A) (h : Thrown -> M A) :
  respects R m -> (forall t, respects R (h t)) -> respects R (try_catch m h).
Proof.
  intros Hm Hh w. unfold try_catch. specialize (Hm w).
  destruct (m w) as [[a|t] w1]; simpl in *; [exact Hm|].
  exact (R_trans _ _ _ Hm (Hh t w1)).
Qed.

Lemma respects_try_finally A (m : M A) (fin : M unit) :
  respects R m -> respects R fin -> respects R (try_finally m fin).
Proof.
  intros Hm Hf w. unfold try_finally. specialize (Hm w).
  destruct (m w) as [r w1]; simpl in *. specialize (Hf w1).
  destruct (fin w1) as [[u|t] w2]; simpl in *; eauto.
Qed.

Lemma respects_console_log args : respects R (console_log args).
Proof. intros w. apply R_record. Qed.

Lemma respects_console_warn args : respects R (console_warn args).
Proof. intros w. apply R_record. Qed.

Lemma respects_console_error args : respects R (console_error args).
Proof. intros w. apply R_record. Qed.

Lemma respects_of_reply A (r : Reply A) w0 w :
  R w0 w -> R w0 (snd (of_reply r w)).
Proof. now destruct r. Qed.

Lemma respects_createSessionClient : respects R (createSessionClient env).
Proof.
  intros w. unfold createSessionClient.
  destruct (sessionClient_reply env _ _); apply R_ticked.
Qed.

Lemma respects_ID_unique : respects R (ID_unique env).
Proof. intros w. apply R_ticked. Qed.

Lemma respects_createEmailToken userId email :
  respects R (account_createEmailToken env userId email).
Proof. intros w. apply respects_of_reply, R_asked. Qed.

Lemma respects_createSession userId password :
  respects R (account_createSession env userId password).
Proof. intros w. apply respects_of_reply, R_asked. Qed.

Lemma respects_get cred : respects R (account_get env cred).
Proof. intros w. apply respects_of_reply, R_asked. Qed.

Lemma respects_deleteSession cred sessionId :
  respects R (account_deleteSession env cred sessionId).
Proof. intros w. apply respects_of_reply, R_asked. Qed.

Lemma core_extends_refl ps : core_extends ps ps.
Proof. exists []. now rewrite app_nil_r. Qed.

Lemma core_extends_app ps more : core_extends ps (ps ++ more).
Proof. exists (map core more). apply map_app. Qed.

Lemma core_extends_trans ps1 ps2 ps3 :
  core_extends ps1 ps2 -> core_extends ps2 ps3 -> core_extends ps1 ps3.
Proof.
  intros [m1 E1] [m2 E2]. exists (m1 ++ m2).
  now rewrite E2, E1, app_assoc.
Qed.

Lemma core_patch id actual ps :
  map core (map (patch_accountId id actual) ps) = map core ps.
Proof.
  rewrite map_map. apply map_ext. intros d.
  unfold patch_accountId. now destruct (has_id id d).
Qed.

(** A request to the users collection leaves in it what it served, and
    then the document it created, or the same with an identifier
    replaced. *)
Lemma respects_store_request A c
    (serve : list Document -> Reply A * list Document) :
  (forall ps, core_extends ps (snd (serve ps))) ->
  respects R (@store_request env A c serve).
Proof.
  intros Hserve w. unfold store_request.
  assert (H1 : R w (asked (ToStore c) (with_profiles (served env w) w))).
  { eapply R_trans; [|apply R_asked].
    apply R_profiles, core_extends_app. }
  destruct (fault env (clock w)); [exact H1|].
  specialize (Hserve (served env w)).
  destruct (serve (served env w)) as [r ps]. simpl in Hserve.
  apply respects_of_reply. eapply R_trans; [exact H1|].
  now apply R_profiles.
Qed.

Lemma respects_listDocuments q : respects R (databases_listDocuments env q).
Proof.
  apply respects_store_request. intros ps. apply core_extends_refl.
Qed.

Lemma respects_createDocument id data :
  respects R (databases_createDocument env id data).
Proof.
  apply respects_store_request. intros ps. apply core_extends_app.
Qed.

Lemma respects_updateDocument id actual :
  respects R (databases_updateDocument env id actual).
Proof.
  apply respects_store_request. intros ps.
  destruct (existsb (has_id id) ps); simpl; [|apply core_extends_refl].
  exists []. now rewrite core_patch, app_nil_r.
Qed.

End Respects.

(** Goals [respects R m] for an [m] put together from the above, once the
    six facts about [R] are in the context. *)
Ltac respecting :=
  repeat first
    [ apply respects_ret; assumption
    | apply respects_throw; assumption
    | apply respects_console_log; assumption
    | apply respects_console_warn; assumption
    | apply respects_console_error; assumption
    | apply respects_createSessionClient; assumption
    | apply respects_ID_unique; assumption
    | apply respects_createEmailToken; assumption
    | apply respects_createSession; assumption
    | apply respects_get; assumption
    | apply respects_deleteSession; assumption
    | apply respects_listDocuments; assumption
    | apply respects_createDocument; assumption
    | apply respects_updateDocument; assumption
    | apply respects_bind; [assumption| |intros ?]
    | apply respects_try_catch; [assumption| |intros ?]
    | apply respects_try_finally; [assumption| |]
    | match goal with
      | |- respects _ (match ?x with _ => _ end) => destruct x
      end ].

Section Frames.

Variable env : Env.
Variable R : World -> World -> Prop.
Hypothesis R_refl : forall w, R w w.
Hypothesis R_trans : forall w1 w2 w3, R w1 w2 -> R w2 w3 -> R w1 w3.
Hypothesis R_record : forall e w, R w (record e w).
Hypothesis R_asked : forall e w, R w (asked e w).
Hypothesis R_ticked : forall w, R w (ticked w).
Hypothesis R_profiles :
  forall ps w, core_extends (profiles w) ps -> R w (with_profiles ps w).

Lemma respects_getUserByEmail email : respects R (getUserByEmail env email).
Proof. unfold getUserByEmail, createAdminClient. respecting. Qed.

Lemma respects_sendEmailOTP email hint :
  respects R (sendEmailOTP env email hint).
Proof. unfold sendEmailOTP, createAdminClient. respecting. Qed.

Lemma respects_createAccount fullName email :
  respects R (createAccount env fullName email).
Proof.
  unfold createAccount. respecting;
    first [now apply respects_getUserByEmail | now apply respects_sendEmailOTP].
Qed.

Lemma respects_signInUser email : respects R (signInUser env email).
Proof.
  unfold signInUser. respecting;
    first [now apply respects_getUserByEmail | now apply respects_sendEmailOTP].
Qed.

Lemma respects_getCurrentUser : respects R (getCurrentUser env).
Proof. unfold getCurrentUser. respecting. Qed.

Lemma respects_updateAccountIdIfDifferent done d actual :
  respects R (updateAccountIdIfDifferent env done d actual).
Proof. unfold updateAccountIdIfDifferent. respecting. Qed.

Lemma respects_verifySecret_catch A error :
  respects R (@verifySecret_catch A error).
Proof. unfold verifySecret_catch. respecting. Qed.

End Frames.

(** ** The two frames *)

Lemma same_cookies_refl w : same_cookies w w.
Proof. reflexivity. Qed.

Lemma same_cookies_trans w1 w2 w3 :
  same_cookies w1 w2 -> same_cookies w2 w3 -> same_cookies w1 w3.
Proof. unfold same_cookies. congruence. Qed.

Lemma keeps_profiles_refl w : keeps_profiles w w.
Proof. apply core_extends_refl. Qed.

Lemma keeps_profiles_trans w1 w2 w3 :
  keeps_profiles w1 w2 -> keeps_profiles w2 w3 -> keeps_profiles w1 w3.
Proof. apply core_extends_trans. Qed.

(** The six facts that [respecting] asks of a frame, for the two. *)
Ltac cookie_frame :=
  pose proof same_cookies_refl as R_refl;
  pose proof same_cookies_trans as R_trans;
  assert (R_record : forall e w, same_cookies w (record e w))
    by (intros; reflexivity);
  assert (R_asked : forall e w, same_cookies w (asked e w))
    by (intros; reflexivity);
  assert (R_ticked : forall w, same_cookies w (ticked w))
    by (intros; reflexivity);
  assert (R_profiles : forall ps w, core_extends (profiles w) ps ->
                                    same_cookies w (with_profiles ps w))
    by (intros; reflexivity).

Ltac profiles_frame :=
  pose proof keeps_profiles_refl as R_refl;
  pose proof keeps_profiles_trans as R_trans;
  assert (R_record : forall e w, keeps_profiles w (record e w))
    by (intros; apply core_extends_refl);
  assert (R_asked : forall e w, keeps_profiles w (asked e w))
    by (intros; apply core_extends_refl);
  assert (R_ticked : forall w, keeps_profiles w (ticked w))
    by (intros; apply core_extends_refl);
  assert (R_profiles : forall ps w, core_extends (profiles w) ps ->
                                    keeps_profiles w (with_profiles ps w))
    by (intros ? ? H; exact H).

Section MoreProperties.

Variable env : Env.

(** ** The session cookie *)

Lemma cookie_safe_of_respects A (m : M A) :
  respects same_cookies m -> cookie_safe m.
Proof.
  intros H w. specialize (H w). destruct (m w) as [[a|t] w']; auto.
Qed.

Lemma cookie_safe_bind A B (m : M A) (k : A -> M B) :
  respects same_cookies m -> (forall a, cookie_safe (k a)) ->
  cookie_safe (bind m k).
Proof.
  intros Hm Hk w. unfold bind. specialize (Hm w).
  destruct (m w) as [[a|t] w1]; simpl in *; [|exact Hm].
  specialize (Hk a w1). destruct (k a w1) as [[b|t] w2]; auto.
  unfold same_cookies in Hm. congruence.
Qed.

Lemma cookie_safe_try_catch A (m : M A) (h : Thrown -> M A) :
  cookie_safe m -> (forall t, respects same_cookies (h t)) ->
  cookie_safe (try_catch m h).
Proof.
  intros Hm Hh w. unfold try_catch. specialize (Hm w).
  destruct (m w) as [[a|t] w1]; [exact I|].
  specialize (Hh t w1). destruct (h t w1) as [[b|t'] w2]; auto.
  unfold same_cookies in Hh. simpl in Hh. congruence.
Qed.

(** A run of [verifySecret] that returns, taken apart. *)
Lemma verifySecret_Returned w accountId password fullName email r w' :
  verifySecret env accountId password fullName email w = (Returned r, w') ->
  exists s info w5,
    createSession_reply env (clock w) accountId password = Ok s
    /\ get_reply env (1 + clock w) (SessionSecret (secret s)) = Ok info
    /\ r = {| sessionId := session_id s; success := true;
              vr_accountId := account_id info |}
    /\ same_cookies w w5 /\ keeps_profiles w w5
    /\ w' = record (Console LevelLog [LStr "Session cookie set successfully"])
              (with_cookieJar
                 (<["appwrite-session" :=
                      session_cookie (secret s) (production env)]>
                    (cookieJar w5)) w5).
Proof.
  unfold verifySecret, try_catch at 1. intros H.
  match type of H with
  | match ?body w with _ => _ end = _ =>
      destruct (body w) as [[r0 | t] w0] eqn:Hbody;
        [|now apply verifySecret_catch_no_return in H]
  end.
  inversion H; subst r0 w0; clear H.
  apply bind_Returned in Hbody as (u1 & wa & Ea & Hbody).
  inversion Ea; subst wa; clear Ea.
  apply bind_Returned in Hbody as (u2 & wb & Eb & Hbody).
  inversion Eb; subst wb; clear Eb.
  apply bind_Returned in Hbody as (s & wc & Ec & Hbody).
  unfold try_catch, account_createSession in Ec. run_in Ec.
  destruct (createSession_reply env (clock w) accountId password)
    as [s0|e] eqn:Hs.
  2:{ run_in Ec.
      destruct (code_is (Exn e) 401 || _ || _); discriminate. }
  run_in Ec. inversion Ec; subst s0 wc; clear Ec.
  apply bind_Returned in Hbody as (info & wd & Ed & Hbody).
  unfold account_get in Ed. run_in Ed.
  destruct (get_reply env (S (clock w)) (SessionSecret (secret s)))
    as [i0|e] eqn:Hg; [|discriminate].
  run_in Ed. inversion Ed; subst i0 wd; clear Ed.
  apply bind_Returned in Hbody as (u3 & we & Ee & Hbody).
  inversion Ee; subst we; clear Ee.
  apply bind_Returned in Hbody as (existing & w4 & H4 & Hbody).
  apply bind_Returned in Hbody as (u5 & w5 & H5 & Hbody).
  apply bind_Returned in Hbody as (u6 & w6 & H6 & Hbody).
  apply bind_Returned in Hbody as (u7 & w7 & H7 & Hbody).
  inversion Hbody; subst r w'; clear Hbody.
  inversion H7; subst w7; clear H7. inversion H6; subst w6; clear H6.
  exists s, info, w5. split; [reflexivity|]. split; [exact Hg|].
  split; [reflexivity|].
  assert (Hboth : forall R : World -> World -> Prop,
            (forall w, R w w) ->
            (forall w1 w2 w3, R w1 w2 -> R w2 w3 -> R w1 w3) ->
            (forall e w, R w (record e w)) ->
            (forall e w, R w (asked e w)) ->
            (forall w, R w (ticked w)) ->
            (forall ps w, core_extends (profiles w) ps ->
                          R w (with_profiles ps w)) ->
            R w w5).
  { intros R R1 R2 R3 R4 R5 R6.
    match type of H4 with
    | ?m ?w0 = _ =>
        assert (S4 : R w0 w4);
          [ change w4 with (snd (Returned existing, w4)); rewrite <- H4;
            assert (E : respects R m);
              [ destruct (truthy email);
                  [now apply respects_getUserByEmail
                  |now apply respects_ret]
              | apply E ]
          | ];
        assert (S0 : R w w0) by (repeat (eapply R2; [|apply R3 || apply R4]);
                                 apply R1)
    end.
    match type of H5 with
    | ?m ?w0 = _ =>
        assert (S5 : R w4 w5);
          [ change w5 with (snd (Returned u5, w5)); rewrite <- H5;
            assert (E : respects R m);
              [ respecting;
                first [ now apply respects_getUserByEmail
                      | now apply respects_updateAccountIdIfDifferent ]
              | apply E ]
          | ]
    end.
    eauto. }
  split; [cookie_frame; now apply Hboth|].
  split; [profiles_frame; now apply Hboth|]. reflexivity.
Qed.

(** [verifySecret] never throws after it has set the cookie. *)
Lemma verifySecret_cookie_safe accountId password fullName email :
  cookie_safe (verifySecret env accountId password fullName email).
Proof.
  cookie_frame. unfold verifySecret.
  apply cookie_safe_try_catch;
    [|intros t; now apply respects_verifySecret_catch].
  unfold createAdminClient.
  repeat (apply cookie_safe_bind; [now respecting|intros ?]).
  apply cookie_safe_bind.
  - respecting;
      first [ now apply respects_getUserByEmail
            | now apply respects_updateAccountIdIfDifferent ].
  - intros u w0. exact I.
Qed.

(** X1: the session cookie is set exactly when [verifySecret] returns:
    then it holds the secret of the session just created, under the policy
    of [session_cookie]; when [verifySecret] throws, at whatever step, the
    cookie jar is as it was. *)
Theorem verifySecret_sets_cookie_iff_it_returns
    w accountId password fullName email :
  match verifySecret env accountId password fullName email w with
  | (Returned _, w') =>
      exists s,
        createSession_reply env (clock w) accountId password = Ok s
        /\ cookieJar w'
           = <["appwrite-session" :=
                 {| cookie_value := secret s; path := "/"; httpOnly := true;
                    sameSite := "lax"; secure := production env;
                    maxAge := 2592000%Z |}]> (cookieJar w)
  | (Threw _, w') => cookieJar w' = cookieJar w
  end.
Proof.
  pose proof (verifySecret_cookie_safe accountId password fullName email w)
    as Hsafe.
  destruct (verifySecret env accountId password fullName email w)
    as [[r|t] w'] eqn:Hrun; [|exact Hsafe].
  apply verifySecret_Returned in Hrun
    as (s & info & w5 & Hs & _ & _ & Hjar & _ & ->).
  exists s. split; [exact Hs|]. simpl. now rewrite Hjar.
Qed.

(** ** What the actions never do *)

Lemma keeps_profiles_cookies_set name c :
  respects keeps_profiles (cookies_set name c).
Proof. intros w. apply core_extends_refl. Qed.

Lemma keeps_profiles_cookies_delete name :
  respects keeps_profiles (cookies_delete name).
Proof. intros w. apply core_extends_refl. Qed.

(** X2: no action of the file removes a profile, moves one, or changes the
    [$id], the name, the email or the avatar of one: whatever the
    directory and the store answer, the users collection after a call
    starts with the documents it had, in their order, each with those four
    fields as they were. *)
Theorem actions_keep_profiles
    w fullName email accountId password optName optEmail hint :
  keeps_profiles w (snd (sendEmailOTP env email hint w))
  /\ keeps_profiles w (snd (createAccount env fullName email w))
  /\ keeps_profiles w
       (snd (verifySecret env accountId password optName optEmail w))
  /\ keeps_profiles w (snd (getCurrentUser env w))
  /\ keeps_profiles w (snd (signOutUser env w))
  /\ keeps_profiles w (snd (signInUser env email w)).
Proof.
  profiles_frame. repeat split.
  - now apply respects_sendEmailOTP.
  - now apply respects_createAccount.
  - assert (H : respects keeps_profiles
                  (verifySecret env accountId password optName optEmail)).
    { unfold verifySecret, createAdminClient, verifySecret_catch.
      respecting;
        first [ now apply respects_getUserByEmail
              | now apply respects_updateAccountIdIfDifferent
              | apply keeps_profiles_cookies_set ]. }
    apply H.
  - now apply respects_getCurrentUser.
  - assert (H : respects keeps_profiles (signOutUser env)).
    { unfold signOutUser, handleError, redirect.
      respecting; apply keeps_profiles_cookies_delete. }
    apply H.
  - now apply respects_signInUser.
Qed.

(** X3: only [verifySecret] sets the session cookie and only [signOutUser]
    deletes it: the other actions leave the cookie jar as it was, however
    they end. *)
Theorem other_actions_leave_cookies w fullName email hint :
  cookieJar (snd (sendEmailOTP env email hint w)) = cookieJar w
  /\ cookieJar (snd (createAccount env fullName email w)) = cookieJar w
  /\ cookieJar (snd (getCurrentUser env w)) = cookieJar w
  /\ cookieJar (snd (signInUser env email w)) = cookieJar w.
Proof.
  cookie_frame. repeat split.
  - now apply (respects_sendEmailOTP env same_cookies).
  - now apply (respects_createAccount env same_cookies).
  - now apply (respects_getCurrentUser env same_cookies).
  - now apply (respects_signInUser env same_cookies).
Qed.

Lemma emits_createSessionClient P : emits P (createSessionClient env).
Proof.
  intros w. exists []. unfold createSessionClient.
  destruct (sessionClient_reply env _ _); simpl; now rewrite app_nil_r.
Qed.

Lemma emits_of_reply A (r : Reply A) w :
  journal (snd (of_reply r w)) = journal w.
Proof. now destruct r. Qed.

Lemma emits_createEmailToken (P : Event -> Prop) userId email :
  P (ToDirectory (CreateEmailToken userId email)) ->
  emits P (account_createEmailToken env userId email).
Proof.
  intros H w. exists [ToDirectory (CreateEmailToken userId email)].
  unfold account_createEmailToken. rewrite emits_of_reply. auto.
Qed.

Lemma emits_get (P : Event -> Prop) cred :
  P (ToDirectory (AccountGet cred)) -> emits P (account_get env cred).
Proof.
  intros H w. exists [ToDirectory (AccountGet cred)].
  unfold account_get. rewrite emits_of_reply. auto.
Qed.

Lemma emits_deleteSession (P : Event -> Prop) cred sessionId :
  P (ToDirectory (DeleteSession cred sessionId)) ->
  emits P (account_deleteSession env cred sessionId).
Proof.
  intros H w. exists [ToDirectory (DeleteSession cred sessionId)].
  unfold account_deleteSession. rewrite emits_of_reply. auto.
Qed.

Ltac emitting_requests :=
  repeat first
    [ apply emits_ret
    | apply emits_throw
    | apply emits_cookies_set
    | apply emits_cookies_delete
    | apply emits_ID_unique
    | apply emits_createSessionClient
    | apply emits_console_log; exact I
    | apply emits_console_warn; exact I
    | apply emits_console_error; exact I
    | apply emits_store_request; exact I
    | apply emits_createEmailToken; exact I
    | apply emits_get; exact I
    | apply emits_deleteSession; exact I
    | apply emits_bind; [|intros ?]
    | apply emits_try_catch; [|intros ?]
    | apply emits_try_finally
    | match goal with
      | |- emits _ (match ?x with _ => _ end) => destruct x
      end ].

(** X4: only [verifySecret] writes to the users collection: the other
    actions send it lookups at most, never a creation or an update. *)
Theorem other_actions_never_write fullName email hint :
  emits not_a_write (sendEmailOTP env email hint)
  /\ emits not_a_write (createAccount env fullName email)
  /\ emits not_a_write (getCurrentUser env)
  /\ emits not_a_write (signOutUser env)
  /\ emits not_a_write (signInUser env email).
Proof.
  repeat split.
  - unfold sendEmailOTP, createAdminClient. emitting_requests.
  - unfold createAccount, getUserByEmail, sendEmailOTP, createAdminClient,
      databases_listDocuments.
    emitting_requests.
  - unfold getCurrentUser, databases_listDocuments. emitting_requests.
  - unfold signOutUser, handleError, redirect. emitting_requests.
  - unfold signInUser, getUserByEmail, sendEmailOTP, createAdminClient,
      databases_listDocuments.
    emitting_requests.
Qed.

(** ** Failures are errors with a message *)

Lemma message_or_truthy t fallback :
  fallback <> "" -> is_truthy (Some (message_or t fallback)) = true.
Proof.
  intros H. unfold message_or, is_truthy.
  destruct (thrown_message t) as [m|]; simpl.
  - destruct (m =? "")%string eqn:E; simpl.
    + apply String.eqb_neq in H. now rewrite H.
    + now rewrite E.
  - apply String.eqb_neq in H. now rewrite H.
Qed.

Lemma verifySecret_catch_is_Error A error w :
  match fst (@verifySecret_catch A error w) with
  | Threw t => is_Error_with_message t
  | Returned _ => False
  end.
Proof.
  unfold verifySecret_catch, bind, console_error, throw.
  destruct (code_is error 401 || _ || _); [now split|].
  destruct (message_includes error "expired"); [now split|].
  destruct (thrown_instanceofError error && _) eqn:E; simpl.
  - apply andb_true_iff in E. exact E.
  - split; [reflexivity|]. now apply message_or_truthy.
Qed.

(** X5: whatever goes wrong in [sendEmailOTP], [signInUser] or
    [verifySecret], what the caller catches is an [Error] with a message
    that is not empty; [createAccount] always throws an [Error] too, whose
    message may be empty when it is the failure of its lookup. *)
Theorem failures_are_Errors
    w fullName email accountId password optName optEmail hint :
  match fst (sendEmailOTP env email hint w) with
  | Threw t => is_Error_with_message t
  | Returned _ => True
  end
  /\ match fst (signInUser env email w) with
     | Threw t => is_Error_with_message t
     | Returned _ => True
     end
  /\ match fst (verifySecret env accountId password optName optEmail w) with
     | Threw t => is_Error_with_message t
     | Returned _ => True
     end
  /\ match fst (createAccount env fullName email w) with
     | Threw t => thrown_instanceofError t = true
     | Returned _ => True
     end.
Proof.
  assert (Hcatch : forall A (m : M A) h (Q : Thrown -> Prop) w0,
            (forall t w1, match fst (h t w1) with
                          | Threw t' => Q t'
                          | Returned _ => True
                          end) ->
            match fst (try_catch m h w0) with
            | Threw t => Q t
            | Returned _ => True
            end).
  { intros A m h Q w0 H. unfold try_catch.
    destruct (m w0) as [[a|t] w1]; [exact I | apply H]. }
  repeat split.
  - unfold sendEmailOTP. unfold bind at 1. unfold createAdminClient, ret.
    cbv beta iota.
    apply Hcatch. intros t w1. split; [reflexivity|].
    now apply message_or_truthy.
  - unfold signInUser. apply Hcatch. intros t w1.
    split; [reflexivity|]. now apply message_or_truthy.
  - unfold verifySecret. apply Hcatch. intros t w1.
    pose proof (verifySecret_catch_is_Error VerifyResult t w1) as H.
    now destruct (fst (verifySecret_catch t w1)).
  - unfold createAccount. apply Hcatch. intros t w1.
    unfold bind, console_error, throw.
    now destruct (thrown_instanceofError t) eqn:E.
Qed.

(** ** Challenges *)

Lemma truthy_idem o : truthy (truthy o) = truthy o.
Proof.
  destruct o as [s|]; [|reflexivity]. simpl.
  destruct (s =? "")%string eqn:E; [reflexivity|]. simpl. now rewrite E.
Qed.

(** The run of [sendEmailOTP] in terms of the answer of the directory. *)
Lemma sendEmailOTP_run w email hint :
  exists w1,
    clock w1 = S (request_clock (clock w) hint)
    /\ profiles w1 = profiles w /\ cookieJar w1 = cookieJar w
    /\ storeCalls (journal w1) = storeCalls (journal w)
    /\ directoryCalls (journal w1)
       = directoryCalls (journal w)
         ++ [CreateEmailToken (requested_id env (clock w) hint) email]
    /\ match createEmailToken_reply env (request_clock (clock w) hint)
               (requested_id env (clock w) hint) email with
       | Ok token =>
           match truthy (token_userId token) with
           | Some confirmed =>
               sendEmailOTP env email hint w
               = (Returned confirmed,
                  record (Console LevelLog [LStr "Token response:";
                                            LToken token])
                    (record (Console LevelLog
                               [LStr "Email OTP sent successfully, userId:";
                                LStr confirmed; LStr "email:"; LStr email])
                       w1))
           | None =>
               sendEmailOTP env email hint w
               = (Returned (requested_id env (clock w) hint),
                  record (Console LevelWarn
                            [LStr "Token response doesn't contain userId, using provided userId:";
                             LStr (requested_id env (clock w) hint)]) w1)
           end
       | Fail e =>
           sendEmailOTP env email hint w
           = (Threw (Exn (new_Error
                (message_or (Exn e)
                   "Failed to send email OTP. Please try again."))),
              record (Console LevelError [LStr "Error details:";
                                          LThrown (Exn e)])
                (record (Console LevelError [LStr "Error sending email OTP:";
                                             LThrown (Exn e)]) w1))
       end.
Proof.
  unfold sendEmailOTP, requested_id, request_clock, try_catch, bind,
    createAdminClient, ret, account_createEmailToken.
  destruct (truthy hint) as [given|]; run;
    (eexists; split; [|split; [|split; [|split; [|split]]]];
     [| | | | |
      match goal with
      | |- context [createEmailToken_reply env ?t ?u ?e] =>
          destruct (createEmailToken_reply env t u e) as [token|e0]; run;
          [destruct (truthy (token_userId token)); reflexivity
          |reflexivity]
      end];
     run; rewrite ?storeCalls_app, ?directoryCalls_app; simpl;
     rewrite ?app_nil_r; reflexivity).
Qed.

(** X6: the identifier [sendEmailOTP] answers with is the one the
    directory puts in its answer, whatever it was asked under: the hint
    when there is one, a fresh identifier otherwise (none is drawn when
    there is a hint). Only when the answer of the directory has no
    identifier does it fall back on the one it asked under, with a
    warning. *)
Theorem sendEmailOTP_answers_with_directory_identifier w email hint token :
  createEmailToken_reply env (request_clock (clock w) hint)
    (requested_id env (clock w) hint) email = Ok token ->
  exists w',
    sendEmailOTP env email hint w
    = (Returned match truthy (token_userId token) with
                | Some confirmed => confirmed
                | None => requested_id env (clock w) hint
                end, w')
    /\ directoryCalls (journal w')
       = directoryCalls (journal w)
         ++ [CreateEmailToken (requested_id env (clock w) hint) email]
    /\ (truthy (token_userId token) = None ->
        In (Console LevelWarn
              [LStr "Token response doesn't contain userId, using provided userId:";
               LStr (requested_id env (clock w) hint)]) (journal w')).
Proof.
  intros Ht.
  destruct (sendEmailOTP_run w email hint)
    as (w1 & _ & _ & _ & _ & Hd & Hrun).
  rewrite Ht in Hrun.
  destruct (truthy (token_userId token)) as [confirmed|];
    rewrite Hrun; eexists; (split; [reflexivity|]); simpl;
    rewrite !directoryCalls_app; simpl; rewrite ?app_nil_r;
    (split; [exact Hd|]).
  - discriminate.
  - intros _. apply in_or_app. right. now left.
Qed.

(** X7: when the directory cannot issue the challenge, [sendEmailOTP]
    throws a new [Error] with the message of the directory, or with
    "Failed to send email OTP. Please try again." when that failure has
    none; it has touched neither the users collection nor the cookie
    jar. *)
Theorem sendEmailOTP_delivery_failure w email hint e :
  createEmailToken_reply env (request_clock (clock w) hint)
    (requested_id env (clock w) hint) email = Fail e ->
  exists w',
    sendEmailOTP env email hint w
    = (Threw (Exn (new_Error
         match truthy (message e) with
         | Some m => m
         | None => "Failed to send email OTP. Please try again."
         end)), w')
    /\ profiles w' = profiles w /\ cookieJar w' = cookieJar w
    /\ storeCalls (journal w') = storeCalls (journal w).
Proof.
  intros Ht.
  destruct (sendEmailOTP_run w email hint)
    as (w1 & _ & Hp & Hc & Hs & _ & Hrun).
  rewrite Ht in Hrun. rewrite Hrun. eexists. split; [reflexivity|].
  simpl. rewrite !storeCalls_app. simpl. rewrite !app_nil_r. auto.
Qed.

(** ** Initiation of sign-up and of sign-in *)

Lemma truthy_is_truthy o c : truthy o = Some c -> is_truthy (Some c) = true.
Proof.
  destruct o as [s|]; simpl; [|discriminate].
  destruct (s =? "")%string eqn:E; [discriminate|].
  intros H. inversion H; subst c. unfold is_truthy. simpl. now rewrite E.
Qed.

Lemma is_truthy_nonempty s : is_truthy (Some s) = true -> s <> "".
Proof.
  unfold is_truthy. simpl. destruct (s =? "")%string eqn:E; [discriminate|].
  intros _. now apply String.eqb_neq.
Qed.

Lemma message_or_new_Error m fallback :
  is_truthy (Some m) = true -> message_or (Exn (new_Error m)) fallback = m.
Proof.
  unfold message_or, is_truthy. simpl.
  now destruct (m =? "")%string.
Qed.

(** The world in which [createAccount] and [signInUser] go on after
    their lookup. *)
Lemma after_lookup_facts email w :
  let w0 := asked (ToStore (ListDocuments (QueryEqual "email" [email])))
              (with_profiles (served env w) w) in
  clock w0 = S (clock w) /\ profiles w0 = served env w
  /\ cookieJar w0 = cookieJar w
  /\ storeCalls (journal w0)
     = storeCalls (journal w) ++ [ListDocuments (QueryEqual "email" [email])]
  /\ directoryCalls (journal w0) = directoryCalls (journal w).
Proof.
  simpl. rewrite storeCalls_app, directoryCalls_app. simpl.
  now rewrite app_nil_r.
Qed.

(** X8: when the challenge of a sign-up cannot be issued, [createAccount]
    throws the error of [sendEmailOTP] as it is, with the message of the
    directory; no profile has been written. *)
Theorem createAccount_delivery_failure w fullName email e :
  fault env (clock w) = None ->
  first_with_email email (served env w) = None ->
  createEmailToken_reply env (2 + clock w) (unique_id env (1 + clock w)) email
  = Fail e ->
  exists w',
    createAccount env fullName email w
    = (Threw (Exn (new_Error
         match truthy (message e) with
         | Some m => m
         | None => "Failed to send email OTP. Please try again."
         end)), w')
    /\ profiles w' = served env w
    /\ cookieJar w' = cookieJar w
    /\ storeCalls (journal w')
       = storeCalls (journal w) ++ [ListDocuments (QueryEqual "email" [email])].
Proof.
  intros Hf Hd Ht. simpl in Ht.
  destruct (after_lookup_facts email w) as (Hc0 & Hp0 & Hj0 & Hs0 & _).
  destruct (sendEmailOTP_run
              (asked (ToStore (ListDocuments (QueryEqual "email" [email])))
                 (with_profiles (served env w) w)) email None)
    as (w1 & _ & Hp & Hc & Hs & _ & Hrun).
  unfold requested_id, request_clock in Hrun. simpl in Hrun.
  rewrite Ht in Hrun.
  unfold createAccount, try_catch, bind.
  rewrite (getUserByEmail_served env email w Hf), Hd. rewrite Hrun.
  eexists. split; [reflexivity|]. simpl.
  rewrite !storeCalls_app. simpl. rewrite !app_nil_r.
  rewrite Hp, Hc, Hs. simpl. rewrite storeCalls_app. simpl. auto.
Qed.

(** X9: when the lookup by email itself fails, neither initiation asks the
    directory for anything. [createAccount] throws the failure of the
    store as it is when it is an [Error], and otherwise a new [Error] with
    its message or "Failed to create account. Please try again.";
    [signInUser] always throws a new [Error], with the message of the
    failure or "Failed to sign in. Please try again.". *)
Theorem initiation_lookup_failure w fullName email e :
  fault env (clock w) = Some e ->
  (exists w',
     createAccount env fullName email w
     = (Threw (if instanceofError e then Exn e
               else Exn (new_Error
                      match truthy (message e) with
                      | Some m => m
                      | None => "Failed to create account. Please try again."
                      end)), w')
     /\ directoryCalls (journal w') = directoryCalls (journal w))
  /\ (exists w',
        signInUser env email w
        = (Threw (Exn (new_Error
             match truthy (message e) with
             | Some m => m
             | None => "Failed to sign in. Please try again."
             end)), w')
        /\ directoryCalls (journal w') = directoryCalls (journal w)).
Proof.
  intros Hf. split.
  - unfold createAccount, try_catch, bind at 1.
    rewrite (getUserByEmail_fault env email w e Hf).
    unfold bind, console_error, throw. simpl.
    destruct (instanceofError e); eexists; (split; [reflexivity|]);
      simpl; rewrite !directoryCalls_app; simpl; now rewrite !app_nil_r.
  - unfold signInUser, try_catch, bind at 1.
    rewrite (getUserByEmail_fault env email w e Hf).
    eexists. split; [reflexivity|].
    simpl. rewrite !directoryCalls_app. simpl. now rewrite !app_nil_r.
Qed.

(** X10: sign-in initiation for an email that has a profile requests the
    challenge under the identifier on file (a fresh one when the profile
    has none) and answers with the identifier the directory confirms,
    which may be another; it writes nothing. *)
Theorem signInUser_known_email w email d token confirmed :
  fault env (clock w) = None ->
  first_with_email email (served env w) = Some d ->
  createEmailToken_reply env
    (request_clock (1 + clock w) (doc_accountId d))
    (requested_id env (1 + clock w) (doc_accountId d)) email = Ok token ->
  truthy (token_userId token) = Some confirmed ->
  exists w',
    signInUser env email w
    = (Returned {| si_accountId := Some confirmed; si_error := None |}, w')
    /\ directoryCalls (journal w')
       = directoryCalls (journal w)
         ++ [CreateEmailToken
               (requested_id env (1 + clock w) (doc_accountId d)) email]
    /\ profiles w' = served env w
    /\ cookieJar w' = cookieJar w.
Proof.
  intros Hf Hd Ht Hc. simpl in Ht.
  destruct (after_lookup_facts email w) as (Hc0 & Hp0 & Hj0 & _ & Hd0).
  destruct (sendEmailOTP_run
              (asked (ToStore (ListDocuments (QueryEqual "email" [email])))
                 (with_profiles (served env w) w)) email
              (truthy (doc_accountId d)))
    as (w1 & _ & Hp & Hj & _ & Hdir & Hrun).
  unfold requested_id, request_clock in *. rewrite truthy_idem in *.
  simpl in Hrun, Hdir. rewrite Ht, Hc in Hrun.
  unfold signInUser, try_catch, bind.
  rewrite (getUserByEmail_served env email w Hf), Hd. cbv zeta. rewrite Hrun.
  rewrite (truthy_is_truthy _ _ Hc).
  eexists. split; [reflexivity|]. simpl.
  rewrite !directoryCalls_app. simpl. rewrite !app_nil_r.
  rewrite Hdir, Hp, Hj. simpl. rewrite directoryCalls_app. simpl.
  rewrite app_nil_r. auto.
Qed.

(** X11: when the challenge of a sign-in cannot be issued, [signInUser]
    throws a new [Error] with the message [sendEmailOTP] has given its
    own. *)
Theorem signInUser_delivery_failure w email d e :
  fault env (clock w) = None ->
  first_with_email email (served env w) = Some d ->
  createEmailToken_reply env
    (request_clock (1 + clock w) (doc_accountId d))
    (requested_id env (1 + clock w) (doc_accountId d)) email = Fail e ->
  exists w',
    signInUser env email w
    = (Threw (Exn (new_Error
         match truthy (message e) with
         | Some m => m
         | None => "Failed to send email OTP. Please try again."
         end)), w')
    /\ profiles w' = served env w
    /\ cookieJar w' = cookieJar w.
Proof.
  intros Hf Hd Ht. simpl in Ht.
  destruct (sendEmailOTP_run
              (asked (ToStore (ListDocuments (QueryEqual "email" [email])))
                 (with_profiles (served env w) w)) email
              (truthy (doc_accountId d)))
    as (w1 & _ & Hp & Hj & _ & _ & Hrun).
  unfold requested_id, request_clock in *. rewrite truthy_idem in *.
  simpl in Hrun. rewrite Ht in Hrun.
  unfold signInUser, try_catch, bind.
  rewrite (getUserByEmail_served env email w Hf), Hd. cbv zeta. rewrite Hrun.
  unfold console_error, throw.
  rewrite message_or_new_Error
    by (apply message_or_truthy; discriminate).
  eexists. split; [reflexivity|]. simpl. now rewrite Hp, Hj.
Qed.

(** X12: what [createAccount] returns can be handed to the verification:
    the full name and the email are the ones it was given, the identifier
    is not empty, and it is the one the directory confirmed for the one
    challenge requested (or, for want of it, the fresh identifier the
    challenge was requested under). *)
Theorem createAccount_returns_usable_identifier w fullName email r w' :
  createAccount env fullName email w = (Returned r, w') ->
  ca_accountId r <> "" /\ ca_fullName r = fullName /\ ca_email r = email
  /\ directoryCalls (journal w')
     = directoryCalls (journal w)
       ++ [CreateEmailToken (unique_id env (1 + clock w)) email]
  /\ exists token,
       createEmailToken_reply env (2 + clock w) (unique_id env (1 + clock w))
         email = Ok token
       /\ ca_accountId r
          = match truthy (token_userId token) with
            | Some confirmed => confirmed
            | None => unique_id env (1 + clock w)
            end.
Proof.
  unfold createAccount, try_catch, bind. intros H. cbn [Nat.add].
  destruct (fault env (clock w)) as [e|] eqn:Hf.
  { rewrite (getUserByEmail_fault env email w e Hf) in H. run_in H.
    destruct (thrown_instanceofError (Exn e)); unfold throw in H;
      discriminate. }
  rewrite (getUserByEmail_served env email w Hf) in H.
  destruct (first_with_email email (served env w)) as [d|] eqn:Hd.
  { run_in H. cbn [thrown_instanceofError new_Error instanceofError] in H.
    unfold throw in H. discriminate. }
  destruct (after_lookup_facts email w) as (_ & _ & _ & _ & Hd0).
  destruct (sendEmailOTP_run
              (asked (ToStore (ListDocuments (QueryEqual "email" [email])))
                 (with_profiles (served env w) w)) email None)
    as (w1 & _ & _ & _ & _ & Hdir & Hrun).
  unfold requested_id, request_clock in Hrun, Hdir. simpl in Hrun, Hdir.
  rewrite directoryCalls_app in Hdir. simpl in Hdir.
  rewrite app_nil_r in Hdir.
  destruct (createEmailToken_reply env (S (S (clock w)))
              (unique_id env (S (clock w))) email) as [token|e] eqn:Ht.
  2:{ rewrite Hrun in H. step_in H.
      cbn [thrown_instanceofError new_Error instanceofError] in H.
      unfold throw in H. discriminate. }
  assert (Hfin : forall id w2,
            sendEmailOTP env email None
              (asked (ToStore (ListDocuments (QueryEqual "email" [email])))
                 (with_profiles (served env w) w)) = (Returned id, w2) ->
            directoryCalls (journal w2)
            = directoryCalls (journal w)
              ++ [CreateEmailToken (unique_id env (S (clock w))) email] ->
            id = match truthy (token_userId token) with
                 | Some confirmed => confirmed
                 | None => unique_id env (S (clock w))
                 end ->
            ca_accountId r <> "" /\ ca_fullName r = fullName
            /\ ca_email r = email
            /\ directoryCalls (journal w')
               = directoryCalls (journal w)
                 ++ [CreateEmailToken (unique_id env (S (clock w))) email]
            /\ exists token0,
                 Ok token = Ok token0
                 /\ ca_accountId r
                    = match truthy (token_userId token0) with
                      | Some confirmed => confirmed
                      | None => unique_id env (S (clock w))
                      end).
  { intros id w2 E Hj Hid. rewrite E in H.
    destruct (is_truthy (Some id)) eqn:Hne.
    - step_in H. inversion H; subst r w'; clear H. simpl.
      split; [now apply is_truthy_nonempty|]. split; [reflexivity|].
      split; [reflexivity|]. split; [exact Hj|]. now exists token.
    - step_in H. cbn [thrown_instanceofError new_Error instanceofError] in H.
      unfold throw in H. discriminate. }
  simpl.
  destruct (truthy (token_userId token)) as [confirmed|] eqn:Hc;
    eapply Hfin; try exact Hrun; try reflexivity;
    simpl; rewrite ?directoryCalls_app; simpl; rewrite ?app_nil_r;
    rewrite ?Hdir, ?Hd0; reflexivity.
Qed.

(** ** Lookups are by exact match *)

Lemma first_with_email_None email ps :
  first_with_email email ps = None ->
  forall d, In d ps -> doc_email d <> email.
Proof.
  unfold first_with_email. intros H d Hin Heq.
  assert (Hm : In d (List.filter (matches (QueryEqual "email" [email])) ps)).
  { apply List.filter_In. split; [exact Hin|]. simpl.
    rewrite Heq, String.eqb_refl. reflexivity. }
  destruct (List.filter _ ps); [contradiction | discriminate].
Qed.

(** X13: when the store answers, [getUserByEmail] answers with a profile
    of the collection whose email is, character for character, the one
    asked for, and with null only if the collection has no such profile. *)
Theorem getUserByEmail_exact_match w email :
  fault env (clock w) = None ->
  match fst (getUserByEmail env email w) with
  | Returned (Some d) => In d (served env w) /\ doc_email d = email
  | Returned None => forall d, In d (served env w) -> doc_email d <> email
  | Threw _ => False
  end.
Proof.
  intros Hf. rewrite (getUserByEmail_served env email w Hf). simpl.
  destruct (first_with_email email (served env w)) as [d|] eqn:E.
  - now apply first_with_email_In.
  - now apply first_with_email_None.
Qed.

(** X14: sign-up looks the email up as it was typed, while [verifySecret]
    files it trimmed and in lower case. So when the profiles on file have
    their emails in that form, a sign-up with an email that is not in that
    form is never refused as existing: its lookup finds nothing and a
    challenge is requested, whatever profiles there are. *)
Theorem createAccount_looks_up_email_as_typed w fullName E :
  fault env (clock w) = None ->
  (forall d, In d (served env w) ->
             toLowerCase (trim (doc_email d)) = doc_email d) ->
  toLowerCase (trim E) <> E ->
  first_with_email E (served env w) = None
  /\ directoryCalls (journal (snd (createAccount env fullName E w)))
     = directoryCalls (journal w)
       ++ [CreateEmailToken (unique_id env (1 + clock w)) E].
Proof.
  intros Hf Hnorm HE.
  assert (Hnone : first_with_email E (served env w) = None).
  { destruct (first_with_email E (served env w)) as [d|] eqn:Hd;
      [|reflexivity].
    apply first_with_email_In in Hd as [Hin Heq].
    specialize (Hnorm d Hin). rewrite Heq in Hnorm. contradiction. }
  split; [exact Hnone|].
  destruct (sendEmailOTP_run
              (asked (ToStore (ListDocuments (QueryEqual "email" [E])))
                 (with_profiles (served env w) w)) E None)
    as (w1 & _ & _ & _ & _ & Hdir & Hrun).
  unfold requested_id, request_clock in Hrun, Hdir. simpl in Hrun, Hdir.
  rewrite directoryCalls_app in Hdir. simpl in Hdir.
  rewrite app_nil_r in Hdir.
  unfold createAccount, try_catch, bind.
  rewrite (getUserByEmail_served env E w Hf), Hnone.
  destruct (createEmailToken_reply env (S (S (clock w)))
              (unique_id env (S (clock w))) E) as [token|e].
  - destruct (truthy (token_userId token)) as [confirmed|];
      rewrite Hrun;
      match goal with
      | |- context [is_truthy ?x] => destruct (is_truthy x)
      end; simpl; rewrite ?directoryCalls_app; simpl;
      rewrite ?app_nil_r; exact Hdir.
  - rewrite Hrun. simpl. rewrite ?directoryCalls_app. simpl.
    rewrite ?app_nil_r. exact Hdir.
Qed.

(** ** The current user *)

Lemma first_with_accountId_In id ps d :
  first_with_accountId id ps = Some d ->
  In d ps /\ doc_accountId d = Some id.
Proof.
  unfold first_with_accountId. intros H.
  assert (Hin : In d (List.filter (matches (QueryEqual "accountId" [id])) ps)).
  { destruct (List.filter _ ps); simpl in H; [discriminate|].
    inversion H. now left. }
  apply List.filter_In in Hin as [Hin Hm]. split; [exact Hin|].
  unfold matches in Hm.
  change (attribute_of "accountId" d) with (doc_accountId d) in Hm.
  destruct (doc_accountId d) as [x|]; [|discriminate].
  simpl in Hm. rewrite orb_false_r in Hm.
  apply String.eqb_eq in Hm. now subst.
Qed.


(** X16: the profile [getCurrentUser] answers with belongs to the account
    of the session of the request: the directory was asked "who am I" with
    that session, and the identifier on file of the profile is the one it
    answered with; the profile is in the users collection. *)
Theorem getCurrentUser_is_the_session_account w d w' :
  getCurrentUser env w = (Returned (Some d), w') ->
  exists info,
    get_reply env (1 + clock w) RequestSession = Ok info
    /\ doc_accountId d = Some (account_id info)
    /\ In d (profiles w')
    /\ directoryCalls (journal w')
       = directoryCalls (journal w) ++ [AccountGet RequestSession].
Proof.
  unfold getCurrentUser, try_catch, bind, createSessionClient, account_get,
    databases_listDocuments, store_request.
  intros H. cbn [Nat.add].
  destruct (sessionClient_reply env (clock w) _) as [u|e];
    [|step_in H; discriminate H].
  step_in H.
  destruct (get_reply env (S (clock w)) RequestSession) as [info|e];
    [|step_in H; discriminate H].
  step_in H. destruct (is_truthy (Some (account_id info))); step_in H;
    [|discriminate H].
  destruct (fault env (S (S (clock w)))); step_in H; [discriminate H|].
  destruct (List.filter (matches (QueryEqual "accountId" [account_id info]))
              (profiles w ++ arrivals env (S (S (clock w)))))
    as [|d0 rest] eqn:Hfound; step_in H; [discriminate H|].
  inversion H; subst d0 w'; clear H.
  exists info. split; [reflexivity|].
  assert (Hd : first_with_accountId (account_id info)
                 (profiles w ++ arrivals env (S (S (clock w)))) = Some d)
    by (unfold first_with_accountId; now rewrite Hfound).
  apply first_with_accountId_In in Hd as [Hin Hacc].
  split; [exact Hacc|]. split; [exact Hin|].
  simpl. rewrite !directoryCalls_app. simpl. now rewrite !app_nil_r.
Qed.

(** X17: with a session whose account the directory identifies as [id],
    and a store that answers, [getCurrentUser] answers with the first
    profile of the collection that has [id] on file, and with null when
    there is none. *)
Theorem getCurrentUser_first_profile_of_account w info :
  sessionClient_reply env (clock w) (cookieJar w !! "appwrite-session")
  = Ok tt ->
  get_reply env (1 + clock w) RequestSession = Ok info ->
  account_id info <> "" ->
  fault env (2 + clock w) = None ->
  fst (getCurrentUser env w)
  = Returned (first_with_accountId (account_id info)
                (profiles w ++ arrivals env (2 + clock w))).
Proof.
  intros Hc Hg Hid Hf. simpl in Hg, Hf.
  unfold getCurrentUser, try_catch, bind, createSessionClient, account_get,
    databases_listDocuments, store_request.
  rewrite Hc. step. rewrite Hg. step.
  apply String.eqb_neq in Hid. unfold is_truthy, truthy. rewrite Hid.
  step. rewrite Hf. step. unfold served, first_with_accountId. step.
  now destruct (List.filter _ (profiles w ++ arrivals env (S (S (clock w))))).
Qed.

(** ** Sign-out without a session client *)

(** X18: the session client is built before the [try]: when it cannot be
    built, [signOutUser] throws that failure; nothing is asked of the
    directory, the cookie jar is as it was, and there is no redirect. *)
Theorem signOutUser_without_session_client w e :
  sessionClient_reply env (clock w) (cookieJar w !! "appwrite-session")
  = Fail e ->
  exists w',
    signOutUser env w = (Threw (Exn e), w')
    /\ journal w' = journal w
    /\ cookieJar w' = cookieJar w.
Proof.
  intros Hc. unfold signOutUser, bind, createSessionClient. rewrite Hc.
  eexists. split; [reflexivity|]. split; reflexivity.
Qed.

(** ** More of [verifySecret] *)

(** X19: when the directory has created the session but then fails to say
    whose it is, [verifySecret] fails with what its [catch] makes of that
    failure; the session exists at the directory, but no cookie is set,
    and the users collection has not been asked anything. *)
Theorem verifySecret_identity_failure
    w accountId password fullName email s e :
  createSession_reply env (clock w) accountId password = Ok s ->
  get_reply env (1 + clock w) (SessionSecret (secret s)) = Fail e ->
  exists w',
    verifySecret env accountId password fullName email w
    = (fst (@verifySecret_catch VerifyResult (Exn e) w), w')
    /\ cookieJar w' = cookieJar w
    /\ profiles w' = profiles w
    /\ storeCalls (journal w') = storeCalls (journal w)
    /\ directoryCalls (journal w')
       = directoryCalls (journal w)
         ++ [CreateSession accountId password;
             AccountGet (SessionSecret (secret s))].
Proof.
  intros Hs Hg. simpl in Hg.
  unfold verifySecret, try_catch, bind, account_createSession, account_get.
  run. rewrite Hs. run. rewrite Hg. run.
  match goal with
  | |- context [verifySecret_catch ?t ?w0] =>
      destruct (verifySecret_catch_throws VerifyResult t w0)
        as (t' & w8 & Hcatch & (_ & Hp & Hjar & Hd & Hst));
      rewrite (verifySecret_catch_same VerifyResult t w w0), Hcatch
  end.
  eexists. split; [reflexivity|].
  rewrite Hjar, Hp, Hd, Hst. run.
  rewrite !storeCalls_app, !directoryCalls_app. simpl.
  rewrite !app_nil_r, <- !app_assoc. auto.
Qed.

(** X20: when the lookup of the profile fails, so does the verification,
    with what its [catch] makes of the failure of the store, although the
    passcode was right: no cookie is set and nothing is written. *)
Theorem verifySecret_lookup_failure
    w accountId password fullName email address s info e :
  createSession_reply env (clock w) accountId password = Ok s ->
  get_reply env (1 + clock w) (SessionSecret (secret s)) = Ok info ->
  truthy email = Some address ->
  fault env (2 + clock w) = Some e ->
  exists w',
    verifySecret env accountId password fullName email w
    = (fst (@verifySecret_catch VerifyResult (Exn e) w), w')
    /\ cookieJar w' = cookieJar w
    /\ storeCalls (journal w')
       = storeCalls (journal w)
         ++ [ListDocuments (QueryEqual "email" [address])].
Proof.
  intros Hs Hg He Hf. simpl in Hg, Hf.
  unfold verifySecret, try_catch, bind, account_createSession, account_get.
  run. rewrite Hs. run. rewrite Hg. run. rewrite He.
  rewrite (getUserByEmail_fault env _ _ e) by exact Hf. run.
  match goal with
  | |- context [verifySecret_catch ?t ?w0] =>
      destruct (verifySecret_catch_throws VerifyResult t w0)
        as (t' & w8 & Hcatch & (_ & Hp & Hjar & Hd & Hst));
      rewrite (verifySecret_catch_same VerifyResult t w w0), Hcatch
  end.
  eexists. split; [reflexivity|].
  rewrite Hjar, Hst. run.
  rewrite !storeCalls_app. simpl. rewrite !app_nil_r. auto.
Qed.

(** X21: when the profile found for the email has the resolved identifier
    on file already, or has none, [verifySecret] sends no update: its
    lookup is its only request to the store, and it succeeds with the
    cookie set. *)
Theorem verifySecret_no_update_needed
    w accountId password fullName email address d s info :
  createSession_reply env (clock w) accountId password = Ok s ->
  get_reply env (1 + clock w) (SessionSecret (secret s)) = Ok info ->
  truthy email = Some address ->
  fault env (2 + clock w) = None ->
  first_with_email address (profiles w ++ arrivals env (2 + clock w))
  = Some d ->
  truthy (doc_accountId d) = None
  \/ truthy (doc_accountId d) = Some (account_id info) ->
  exists w',
    verifySecret env accountId password fullName email w
    = (Returned {| sessionId := session_id s; success := true;
                   vr_accountId := account_id info |}, w')
    /\ profiles w' = profiles w ++ arrivals env (2 + clock w)
    /\ storeCalls (journal w')
       = storeCalls (journal w)
         ++ [ListDocuments (QueryEqual "email" [address])]
    /\ cookieJar w'
       = <["appwrite-session" :=
             session_cookie (secret s) (production env)]> (cookieJar w).
Proof.
  intros Hs Hg He Hf Hd Hid. simpl in Hg, Hf, Hd.
  eexists. split; [|split; [|split]].
  - unfold verifySecret, try_catch, bind, account_createSession, account_get.
    run. rewrite Hs. run. rewrite Hg. run. rewrite He.
    rewrite (getUserByEmail_served env) by exact Hf.
    unfold served. run. rewrite Hd.
    rewrite (updateAccountIdIfDifferent_skip env) by exact Hid.
    reflexivity.
  - reflexivity.
  - run. rewrite !storeCalls_app. simpl. now rewrite !app_nil_r.
  - reflexivity.
Qed.

(** X22: a verification with an email for which no profile is found, and
    without a full name, creates no profile and succeeds all the same: the
    session is established and the cookie set for an account that has no
    profile. *)
Theorem verifySecret_succeeds_without_profile
    w accountId password fullName email address s info :
  createSession_reply env (clock w) accountId password = Ok s ->
  get_reply env (1 + clock w) (SessionSecret (secret s)) = Ok info ->
  truthy email = Some address ->
  truthy fullName = None ->
  fault env (2 + clock w) = None ->
  first_with_email address (profiles w ++ arrivals env (2 + clock w))
  = None ->
  exists w',
    verifySecret env accountId password fullName email w
    = (Returned {| sessionId := session_id s; success := true;
                   vr_accountId := account_id info |}, w')
    /\ profiles w' = profiles w ++ arrivals env (2 + clock w)
    /\ storeCalls (journal w')
       = storeCalls (journal w)
         ++ [ListDocuments (QueryEqual "email" [address])]
    /\ cookieJar w'
       = <["appwrite-session" :=
             session_cookie (secret s) (production env)]> (cookieJar w).
Proof.
  intros Hs Hg He Hn Hf Hd. simpl in Hg, Hf, Hd.
  eexists. split; [|split; [|split]].
  - unfold verifySecret, try_catch, bind, account_createSession, account_get.
    run. rewrite Hs. run. rewrite Hg. run. rewrite He, Hn.
    rewrite (getUserByEmail_served env) by exact Hf.
    unfold served. run. rewrite Hd. reflexivity.
  - reflexivity.
  - run. rewrite !storeCalls_app. simpl. now rewrite !app_nil_r.
  - reflexivity.
Qed.

(** ** The email on file *)

Lemma is_space_lower c : is_space (lower_ascii c) = is_space c.
Proof. destruct c as [[] [] [] [] [] [] [] []]; reflexivity. Qed.

Lemma lower_ascii_idem c : lower_ascii (lower_ascii c) = lower_ascii c.
Proof. destruct c as [[] [] [] [] [] [] [] []]; reflexivity. Qed.

Lemma toLowerCase_idem s : toLowerCase (toLowerCase s) = toLowerCase s.
Proof.
  induction s as [|c s IH]; simpl; [reflexivity|].
  now rewrite lower_ascii_idem, IH.
Qed.

Lemma trimStart_toLowerCase s :
  trimStart (toLowerCase s) = toLowerCase (trimStart s).
Proof.
  induction s as [|c s IH]; simpl; [reflexivity|].
  rewrite is_space_lower. now destruct (is_space c).
Qed.

Lemma trimEnd_toLowerCase s :
  trimEnd (toLowerCase s) = toLowerCase (trimEnd s).
Proof.
  induction s as [|c s IH]; simpl; [reflexivity|].
  rewrite IH, is_space_lower.
  destruct (trimEnd s); simpl; [now destruct (is_space c) | reflexivity].
Qed.

Lemma trimEnd_idem s : trimEnd (trimEnd s) = trimEnd s.
Proof.
  induction s as [|c s IH]; simpl; [reflexivity|].
  destruct (trimEnd s) as [|k ks] eqn:E.
  - destruct (is_space c) eqn:Hc; simpl; [reflexivity | now rewrite Hc].
  - change (trimEnd (String c (String k ks)))
      with (match trimEnd (String k ks) with
            | EmptyString =>
                if is_space c then EmptyString else String c EmptyString
            | kept => String c kept
            end).
    now rewrite IH.
Qed.

Lemma trimStart_starts_nonspace s : starts_nonspace (trimStart s).
Proof.
  induction s as [|c s IH]; simpl; [exact I|].
  destruct (is_space c) eqn:Hc; [exact IH | exact Hc].
Qed.

Lemma trimStart_trimEnd s :
  starts_nonspace s -> trimStart (trimEnd s) = trimEnd s.
Proof.
  destruct s as [|c s]; simpl; [reflexivity|]. intros Hc.
  destruct (trimEnd s); rewrite ?Hc; simpl; now rewrite Hc.
Qed.

Lemma trim_idem s : trim (trim s) = trim s.
Proof.
  unfold trim.
  rewrite (trimStart_trimEnd _ (trimStart_starts_nonspace s)).
  apply trimEnd_idem.
Qed.

(** X23: the form in which [verifySecret] files the email of a new
    profile, trimmed and then in lower case, is a normal form: an email on
    file, put in that form again, is unchanged. *)
Theorem filed_email_is_stable s :
  toLowerCase (trim (toLowerCase (trim s))) = toLowerCase (trim s).
Proof.
  unfold trim at 1.
  rewrite trimStart_toLowerCase, trimEnd_toLowerCase, toLowerCase_idem.
  fold (trim (trim s)). now rewrite trim_idem.
Qed.

End MoreProperties.

(** * Properties of the file actions *)

(** ** The order of a listing *)





(** ** The space used *)

Section SpaceUsed.

Variable env : Env.
Variable Date_getTime : string -> option Z.
Variable listFiles_reply : nat -> list FileQuery -> Reply (list FileDocument).

Lemma FileType_eqb_eq a b : FileType_eqb a b = true <-> a = b.
Proof. destruct a, b; simpl; split; congruence. Qed.

Lemma FileType_eqb_refl a : FileType_eqb a a = true.
Proof. now destruct a. Qed.








(** X26: without a current user, [getTotalSpaceUsed] asks for no file: it
    throws the error "User is not authenticated.", which its [catch]
    prints with "Error calculating total space used:, " and throws on. *)
Theorem getTotalSpaceUsed_unauthenticated w :
  sessionClient_reply env (clock w) (cookieJar w !! "appwrite-session")
  = Ok tt ->
  fst (getCurrentUser env (ticked w)) = Returned None ->
  exists w',
    getTotalSpaceUsed env Date_getTime listFiles_reply w
    = (Threw (Exn (new_Error "User is not authenticated.")), w')
    /\ clock w' = clock (snd (getCurrentUser env (ticked w)))
    /\ In (Console LevelLog
             [LThrown (Exn (new_Error "User is not authenticated."));
              LStr "Error calculating total space used:, "])
          (journal w').
Proof.
  unfold getTotalSpaceUsed, try_catch, bind, createSessionClient,
    handleError.
  intros Hs Hu. rewrite Hs.
  destruct (getCurrentUser env (ticked w)) as [o w2]. simpl in Hu. subst o.
  step. eexists. split; [reflexivity|]. split; [reflexivity|].
  simpl. apply in_or_app. right. now left.
Qed.

(** What one file changes of the latest date of a type. *)
Lemma count_file_latestDate ts f t :
  latestDate (category (count_file Date_getTime ts f) t)
  = if FileType_eqb (file_type f) t
    then if negb (is_truthy (Some (latestDate (category ts t))))
            || Date_gt Date_getTime (file_updatedAt f)
                 (latestDate (category ts t))
         then file_updatedAt f
         else latestDate (category ts t)
    else latestDate (category ts t).
Proof.
  unfold count_file. simpl. rewrite FileType_eqb_refl. simpl.
  destruct (FileType_eqb (file_type f) t) eqn:E.
  - apply FileType_eqb_eq in E. subst t.
    destruct (negb _ || _); simpl; rewrite ?FileType_eqb_refl; reflexivity.
  - assert (E' : FileType_eqb t (file_type f) = false)
      by (destruct (file_type f), t; simpl in *; congruence).
    destruct (negb _ || _); simpl; rewrite E'; reflexivity.
Qed.

Lemma Date_gt_irrefl a : Date_gt Date_getTime a a = false.
Proof.
  unfold Date_gt. destruct (Date_getTime a); [apply Z.ltb_irrefl | reflexivity].
Qed.

Lemma of_type_nil t files :
  of_type t files = [] -> forall g, In g files -> file_type g <> t.
Proof.
  intros H g Hg E. unfold of_type in H.
  assert (Hin : In g (List.filter (fun f => FileType_eqb (file_type f) t) files))
    by (apply List.filter_In; split; [exact Hg | now apply FileType_eqb_eq]).
  rewrite H in Hin. exact Hin.
Qed.

Lemma of_type_snoc_other t seen f :
  file_type f <> t -> of_type t (seen ++ [f]) = of_type t seen.
Proof.
  intros H. unfold of_type. rewrite List.filter_app. simpl.
  destruct (FileType_eqb (file_type f) t) eqn:E;
    [apply FileType_eqb_eq in E; contradiction | apply app_nil_r].
Qed.

Lemma fold_count_file_latest t files :
  (forall f, In f files -> file_type f = t ->
     file_updatedAt f <> "" /\ Date_getTime (file_updatedAt f) <> None) ->
  forall seen ts,
    (forall f, In f seen -> file_type f = t ->
       file_updatedAt f <> "" /\ Date_getTime (file_updatedAt f) <> None) ->
    latest_of Date_getTime t seen (latestDate (category ts t)) ->
    latest_of Date_getTime t (seen ++ files)
      (latestDate (category (fold_left (count_file Date_getTime) files ts) t)).
Proof.
  induction files as [|f files IH]; intros Hfiles seen ts Hseen Hinv.
  - simpl. now rewrite app_nil_r.
  - simpl.
    replace (seen ++ f :: files) with ((seen ++ [f]) ++ files)
      by (now rewrite <- app_assoc).
    apply IH.
    + intros g Hg. apply Hfiles. now right.
    + intros g Hg. apply in_app_or in Hg as [Hg|[<-|[]]];
        [now apply Hseen | apply Hfiles; now left].
    + rewrite count_file_latestDate.
      destruct (FileType_eqb (file_type f) t) eqn:E.
      * apply FileType_eqb_eq in E.
        destruct (Hfiles f (or_introl eq_refl) E) as [Hne Hsome].
        destruct Hinv as [[Hnone ->]|(f0 & Hf0 & Ht0 & -> & Hmax)].
        -- simpl. right. exists f. split; [apply in_or_app; right; now left|].
           split; [exact E|]. split; [reflexivity|].
           intros g Hg Hgt. apply in_app_or in Hg as [Hg|[<-|[]]].
           ++ exfalso. exact (of_type_nil _ _ Hnone g Hg Hgt).
           ++ apply Date_gt_irrefl.
        -- destruct (Hseen f0 Hf0 Ht0) as [Hne0 Hsome0].
           assert (Htruthy : is_truthy (Some (file_updatedAt f0)) = true).
           { unfold is_truthy, truthy.
             apply String.eqb_neq in Hne0. now rewrite Hne0. }
           rewrite Htruthy. simpl.
           destruct (Date_gt Date_getTime (file_updatedAt f)
                       (file_updatedAt f0)) eqn:Hgt.
           ++ right. exists f. split; [apply in_or_app; right; now left|].
              split; [exact E|]. split; [reflexivity|].
              intros g Hg Hgt'. apply in_app_or in Hg as [Hg|[<-|[]]];
                [|apply Date_gt_irrefl].
              specialize (Hmax g Hg Hgt').
              destruct (Hseen g Hg Hgt') as [_ Hsomeg].
              unfold Date_gt in *.
              destruct (Date_getTime (file_updatedAt g)); [|congruence].
              destruct (Date_getTime (file_updatedAt f)); [|congruence].
              destruct (Date_getTime (file_updatedAt f0)); [|congruence].
              apply Z.ltb_ge. apply Z.ltb_ge in Hmax. apply Z.ltb_lt in Hgt.
              lia.
           ++ right. exists f0. split; [apply in_or_app; now left|].
              split; [exact Ht0|]. split; [reflexivity|].
              intros g Hg Hgt'. apply in_app_or in Hg as [Hg|[<-|[]]];
                [now apply Hmax | exact Hgt].
      * assert (Hother : file_type f <> t)
          by (intros Heq; apply FileType_eqb_eq in Heq; congruence).
        destruct Hinv as [[Hnone ->]|(f0 & Hf0 & Ht0 & -> & Hmax)].
        -- left. split; [now rewrite of_type_snoc_other | reflexivity].
        -- right. exists f0. split; [apply in_or_app; now left|].
           split; [exact Ht0|]. split; [reflexivity|].
           intros g Hg Hgt'. apply in_app_or in Hg as [Hg|[<-|[]]];
             [now apply Hmax | contradiction].
Qed.

(** X27: when the files of a type carry a date that is not empty and is a
    valid one, the [forEach] of [getTotalSpaceUsed] leaves as the latest
    date of that type the [$updatedAt] of one of its files that no file of
    the type is later than; a type without files keeps the empty date. *)
Theorem latestDate_is_the_latest t files :
  (forall f, In f files -> file_type f = t ->
     file_updatedAt f <> "" /\ Date_getTime (file_updatedAt f) <> None) ->
  let date :=
    latestDate (category (fold_left (count_file Date_getTime) files
                            totalSpace_initial) t) in
  (of_type t files = [] -> date = "")
  /\ (of_type t files <> [] ->
      exists f, In f files /\ file_type f = t /\ date = file_updatedAt f
        /\ forall g, In g files -> file_type g = t ->
             Date_gt Date_getTime (file_updatedAt g) (file_updatedAt f)
             = false).
Proof.
  intros Hfiles date.
  assert (H : latest_of Date_getTime t ([] ++ files) date).
  { apply fold_count_file_latest; [exact Hfiles | intros f [] |].
    left. split; reflexivity. }
  simpl in H. split.
  - intros Hnone. destruct H as [[_ H]|(f & Hf & Ht & _)]; [exact H|].
    exfalso. exact (of_type_nil _ _ Hnone f Hf Ht).
  - intros Hsome. destruct H as [[Hnone _]|H]; [contradiction | exact H].
Qed.

End SpaceUsed.

(** ** The further properties at the scenarios *)

Lemma sendEmailOTP_answers_with_directory_identifier_witness :
  (createEmailToken_reply known_as_I7 (request_clock (clock empty_world) (Some
      "I1"))
       (requested_id known_as_I7 (clock empty_world) (Some "I1")) "ana@x.com"
           = Ok token_I7)
  /\ (exists w',
          sendEmailOTP known_as_I7 "ana@x.com" (Some "I1") empty_world
          = (Returned match truthy (token_userId token_I7) with
                      | Some confirmed => confirmed
                      | None => requested_id known_as_I7 (clock empty_world)
                          (Some "I1")
                      end, w')
          /\ directoryCalls (journal w')
             = directoryCalls (journal empty_world)
               ++ [CreateEmailToken (requested_id known_as_I7 (clock
                   empty_world) (Some "I1")) "ana@x.com"]
          /\ (truthy (token_userId token_I7) = None ->
              In (Console LevelWarn
                    [LStr
                        "Token response doesn't contain userId, using provided userId:";
                     LStr (requested_id known_as_I7 (clock empty_world) (Some
                         "I1"))]) (journal w'))).
Proof.
  split; [reflexivity|].
  apply (sendEmailOTP_answers_with_directory_identifier known_as_I7
      empty_world "ana@x.com" (Some "I1") token_I7);
    [reflexivity].
Defined.

Lemma sendEmailOTP_delivery_failure_witness :
  (createEmailToken_reply undeliverable (request_clock (clock empty_world)
      None)
       (requested_id undeliverable (clock empty_world) None) "ana@x.com" =
           Fail rate_limited)
  /\ (exists w',
          sendEmailOTP undeliverable "ana@x.com" None empty_world
          = (Threw (Exn (new_Error
               match truthy (message rate_limited) with
               | Some m => m
               | None => "Failed to send email OTP. Please try again."
               end)), w')
          /\ profiles w' = profiles empty_world /\ cookieJar w' = cookieJar
              empty_world
          /\ storeCalls (journal w') = storeCalls (journal empty_world)).
Proof.
  split; [reflexivity|].
  apply (sendEmailOTP_delivery_failure undeliverable empty_world "ana@x.com"
      None rate_limited);
    [reflexivity].
Defined.

Lemma createAccount_delivery_failure_witness :
  (fault undeliverable (clock empty_world) = None)
  /\ (first_with_email "ana@x.com" (served undeliverable empty_world) = None)
  /\ (createEmailToken_reply undeliverable (2 + clock empty_world) (unique_id
      undeliverable (1 + clock empty_world)) "ana@x.com"
        = Fail rate_limited)
  /\ (exists w',
          createAccount undeliverable "Ana" "ana@x.com" empty_world
          = (Threw (Exn (new_Error
               match truthy (message rate_limited) with
               | Some m => m
               | None => "Failed to send email OTP. Please try again."
               end)), w')
          /\ profiles w' = served undeliverable empty_world
          /\ cookieJar w' = cookieJar empty_world
          /\ storeCalls (journal w')
             = storeCalls (journal empty_world) ++ [ListDocuments (QueryEqual
                 "email" ["ana@x.com"])]).
Proof.
  split; [reflexivity|].
  split; [reflexivity|].
  split; [reflexivity|].
  apply (createAccount_delivery_failure undeliverable empty_world "Ana"
      "ana@x.com" rate_limited);
    [reflexivity | reflexivity | reflexivity].
Defined.

Lemma initiation_lookup_failure_witness :
  (fault (store_down_at 0) (clock ana_on_file) = Some service_unavailable)
  /\ ((exists w',
           createAccount (store_down_at 0) "Ana" "ana@x.com" ana_on_file
           = (Threw (if instanceofError service_unavailable then Exn
               service_unavailable
                     else Exn (new_Error
                            match truthy (message service_unavailable) with
                            | Some m => m
                            | None =>
                                "Failed to create account. Please try again."
                            end)), w')
           /\ directoryCalls (journal w') = directoryCalls (journal
               ana_on_file))
        /\ (exists w',
              signInUser (store_down_at 0) "ana@x.com" ana_on_file
              = (Threw (Exn (new_Error
                   match truthy (message service_unavailable) with
                   | Some m => m
                   | None => "Failed to sign in. Please try again."
                   end)), w')
              /\ directoryCalls (journal w') = directoryCalls (journal
                  ana_on_file))).
Proof.
  split; [reflexivity|].
  apply (initiation_lookup_failure (store_down_at 0) ana_on_file "Ana"
      "ana@x.com" service_unavailable);
    [reflexivity].
Defined.

Lemma signInUser_known_email_witness :
  (fault known_as_I7 (clock ana_on_file) = None)
  /\ (first_with_email "ana@x.com" (served known_as_I7 ana_on_file) = Some
      (ana (Some "I1")))
  /\ (createEmailToken_reply known_as_I7
          (request_clock (1 + clock ana_on_file) (doc_accountId (ana (Some
              "I1"))))
          (requested_id known_as_I7 (1 + clock ana_on_file) (doc_accountId
              (ana (Some "I1")))) "ana@x.com" = Ok token_I7)
  /\ (truthy (token_userId token_I7) = Some "I7")
  /\ (exists w',
          signInUser known_as_I7 "ana@x.com" ana_on_file
          = (Returned {| si_accountId := Some "I7"; si_error := None |}, w')
          /\ directoryCalls (journal w')
             = directoryCalls (journal ana_on_file)
               ++ [CreateEmailToken
                     (requested_id known_as_I7 (1 + clock ana_on_file)
                         (doc_accountId (ana (Some "I1")))) "ana@x.com"]
          /\ profiles w' = served known_as_I7 ana_on_file
          /\ cookieJar w' = cookieJar ana_on_file).
Proof.
  split; [reflexivity|].
  split; [reflexivity|].
  split; [reflexivity|].
  split; [reflexivity|].
  apply (signInUser_known_email known_as_I7 ana_on_file "ana@x.com" (ana (Some
      "I1")) token_I7 "I7");
    [reflexivity | reflexivity | reflexivity | reflexivity].
Defined.

Lemma signInUser_delivery_failure_witness :
  (fault undeliverable (clock ana_on_file) = None)
  /\ (first_with_email "ana@x.com" (served undeliverable ana_on_file) = Some
      (ana (Some "I1")))
  /\ (createEmailToken_reply undeliverable
          (request_clock (1 + clock ana_on_file) (doc_accountId (ana (Some
              "I1"))))
          (requested_id undeliverable (1 + clock ana_on_file) (doc_accountId
              (ana (Some "I1")))) "ana@x.com" = Fail rate_limited)
  /\ (exists w',
          signInUser undeliverable "ana@x.com" ana_on_file
          = (Threw (Exn (new_Error
               match truthy (message rate_limited) with
               | Some m => m
               | None => "Failed to send email OTP. Please try again."
               end)), w')
          /\ profiles w' = served undeliverable ana_on_file
          /\ cookieJar w' = cookieJar ana_on_file).
Proof.
  split; [reflexivity|].
  split; [reflexivity|].
  split; [reflexivity|].
  apply (signInUser_delivery_failure undeliverable ana_on_file "ana@x.com"
      (ana (Some "I1")) rate_limited);
    [reflexivity | reflexivity | reflexivity].
Defined.

Lemma createAccount_returns_usable_identifier_witness :
  (createAccount steady "Ana" "ana@x.com" empty_world = (Returned
      sign_up_of_ana, (snd (createAccount steady "Ana" "ana@x.com"
      empty_world))))
  /\ (ca_accountId sign_up_of_ana <> "" /\ ca_fullName sign_up_of_ana = "Ana"
      /\ ca_email sign_up_of_ana = "ana@x.com"
        /\ directoryCalls (journal (snd (createAccount steady "Ana"
            "ana@x.com" empty_world)))
           = directoryCalls (journal empty_world)
             ++ [CreateEmailToken (unique_id steady (1 + clock empty_world))
                 "ana@x.com"]
        /\ exists token,
             createEmailToken_reply steady (2 + clock empty_world) (unique_id
                 steady (1 + clock empty_world))
               "ana@x.com" = Ok token
             /\ ca_accountId sign_up_of_ana
                = match truthy (token_userId token) with
                  | Some confirmed => confirmed
                  | None => unique_id steady (1 + clock empty_world)
                  end).
Proof.
  split; [reflexivity|].
  apply (createAccount_returns_usable_identifier steady empty_world "Ana"
      "ana@x.com" sign_up_of_ana (snd (createAccount steady "Ana" "ana@x.com"
      empty_world)));
    [reflexivity].
Defined.

Lemma getUserByEmail_exact_match_witness :
  (fault steady (clock ana_on_file) = None)
  /\ (match fst (getUserByEmail steady "ana@x.com" ana_on_file) with
        | Returned (Some d) => In d (served steady ana_on_file) /\ doc_email d
            = "ana@x.com"
        | Returned None => forall d, In d (served steady ana_on_file) ->
            doc_email d <> "ana@x.com"
        | Threw _ => False
        end).
Proof.
  split; [reflexivity|].
  apply (getUserByEmail_exact_match steady ana_on_file "ana@x.com");
    [reflexivity].
Defined.

Lemma createAccount_looks_up_email_as_typed_witness :
  (fault steady (clock ana_on_file) = None)
  /\ ((forall d, In d (served steady ana_on_file) ->
                   toLowerCase (trim (doc_email d)) = doc_email d))
  /\ (toLowerCase (trim "Ana@X.com ") <> "Ana@X.com ")
  /\ (first_with_email "Ana@X.com " (served steady ana_on_file) = None
        /\ directoryCalls (journal (snd (createAccount steady "Ana"
            "Ana@X.com " ana_on_file)))
           = directoryCalls (journal ana_on_file)
             ++ [CreateEmailToken (unique_id steady (1 + clock ana_on_file))
                 "Ana@X.com "]).
Proof.
  split; [reflexivity|].
  split; [intros d [<-|[]]; reflexivity|].
  split; [discriminate|].
  apply (createAccount_looks_up_email_as_typed steady ana_on_file "Ana"
      "Ana@X.com ");
    [reflexivity | intros d [<-|[]]; reflexivity | discriminate].
Defined.

Lemma getCurrentUser_is_the_session_account_witness :
  (getCurrentUser steady ana_signed_in = (Returned (Some (ana (Some "I1"))),
      (snd (getCurrentUser steady ana_signed_in))))
  /\ (exists info,
          get_reply steady (1 + clock ana_signed_in) RequestSession = Ok info
          /\ doc_accountId (ana (Some "I1")) = Some (account_id info)
          /\ In (ana (Some "I1")) (profiles (snd (getCurrentUser steady
              ana_signed_in)))
          /\ directoryCalls (journal (snd (getCurrentUser steady
              ana_signed_in)))
             = directoryCalls (journal ana_signed_in) ++ [AccountGet
                 RequestSession]).
Proof.
  split; [reflexivity|].
  apply (getCurrentUser_is_the_session_account steady ana_signed_in (ana (Some
      "I1")) (snd (getCurrentUser steady ana_signed_in)));
    [reflexivity].
Defined.

Lemma getCurrentUser_first_profile_of_account_witness :
  (sessionClient_reply steady (clock two_profiles_signed_in) (cookieJar
      two_profiles_signed_in !! "appwrite-session")
     = Ok tt)
  /\ (get_reply steady (1 + clock two_profiles_signed_in) RequestSession = Ok
      account_I1)
  /\ (account_id account_I1 <> "")
  /\ (fault steady (2 + clock two_profiles_signed_in) = None)
  /\ (fst (getCurrentUser steady two_profiles_signed_in)
        = Returned (first_with_accountId (account_id account_I1)
                      (profiles two_profiles_signed_in ++ arrivals steady (2 +
                          clock two_profiles_signed_in)))).
Proof.
  split; [reflexivity|].
  split; [reflexivity|].
  split; [discriminate|].
  split; [reflexivity|].
  apply (getCurrentUser_first_profile_of_account steady two_profiles_signed_in
      account_I1);
    [reflexivity | reflexivity | discriminate | reflexivity].
Defined.

Lemma signOutUser_without_session_client_witness :
  (sessionClient_reply steady (clock empty_world) (cookieJar empty_world !!
      "appwrite-session")
     = Fail (new_Error "No session"))
  /\ (exists w',
          signOutUser steady empty_world = (Threw (Exn (new_Error
              "No session")), w')
          /\ journal w' = journal empty_world
          /\ cookieJar w' = cookieJar empty_world).
Proof.
  split; [reflexivity|].
  apply (signOutUser_without_session_client steady empty_world (new_Error
      "No session"));
    [reflexivity].
Defined.

Lemma verifySecret_identity_failure_witness :
  (createSession_reply identity_down (clock empty_world) "I1" "123456" = Ok
      session_1)
  /\ (get_reply identity_down (1 + clock empty_world) (SessionSecret (secret
      session_1)) = Fail service_unavailable)
  /\ (exists w',
          verifySecret identity_down "I1" "123456" (Some "Ana") (Some
              "ana@x.com") empty_world
          = (fst (@verifySecret_catch VerifyResult (Exn service_unavailable)
              empty_world), w')
          /\ cookieJar w' = cookieJar empty_world
          /\ profiles w' = profiles empty_world
          /\ storeCalls (journal w') = storeCalls (journal empty_world)
          /\ directoryCalls (journal w')
             = directoryCalls (journal empty_world)
               ++ [CreateSession "I1" "123456";
                   AccountGet (SessionSecret (secret session_1))]).
Proof.
  split; [reflexivity|].
  split; [reflexivity|].
  apply (verifySecret_identity_failure identity_down empty_world "I1" "123456"
      (Some "Ana") (Some "ana@x.com") session_1 service_unavailable);
    [reflexivity | reflexivity].
Defined.

Lemma verifySecret_lookup_failure_witness :
  (createSession_reply (store_down_at 2) (clock empty_world) "I1" "123456" =
      Ok session_1)
  /\ (get_reply (store_down_at 2) (1 + clock empty_world) (SessionSecret
      (secret session_1)) = Ok account_I1)
  /\ (truthy (Some "ana@x.com") = Some "ana@x.com")
  /\ (fault (store_down_at 2) (2 + clock empty_world) = Some
      service_unavailable)
  /\ (exists w',
          verifySecret (store_down_at 2) "I1" "123456" None (Some "ana@x.com")
              empty_world
          = (fst (@verifySecret_catch VerifyResult (Exn service_unavailable)
              empty_world), w')
          /\ cookieJar w' = cookieJar empty_world
          /\ storeCalls (journal w')
             = storeCalls (journal empty_world)
               ++ [ListDocuments (QueryEqual "email" ["ana@x.com"])]).
Proof.
  split; [reflexivity|].
  split; [reflexivity|].
  split; [reflexivity|].
  split; [reflexivity|].
  apply (verifySecret_lookup_failure (store_down_at 2) empty_world "I1"
      "123456" None (Some "ana@x.com") "ana@x.com" session_1 account_I1
      service_unavailable);
    [reflexivity | reflexivity | reflexivity | reflexivity].
Defined.

Lemma verifySecret_no_update_needed_witness :
  (createSession_reply steady (clock ana_on_file) "I1" "123456" = Ok
      session_1)
  /\ (get_reply steady (1 + clock ana_on_file) (SessionSecret (secret
      session_1)) = Ok account_I1)
  /\ (truthy (Some "ana@x.com") = Some "ana@x.com")
  /\ (fault steady (2 + clock ana_on_file) = None)
  /\ (first_with_email "ana@x.com" (profiles ana_on_file ++ arrivals steady (2
      + clock ana_on_file))
        = Some (ana (Some "I1")))
  /\ (truthy (doc_accountId (ana (Some "I1"))) = None
        \/ truthy (doc_accountId (ana (Some "I1"))) = Some (account_id
            account_I1))
  /\ (exists w',
          verifySecret steady "I1" "123456" None (Some "ana@x.com")
              ana_on_file
          = (Returned {| sessionId := session_id session_1; success := true;
                         vr_accountId := account_id account_I1 |}, w')
          /\ profiles w' = profiles ana_on_file ++ arrivals steady (2 + clock
              ana_on_file)
          /\ storeCalls (journal w')
             = storeCalls (journal ana_on_file)
               ++ [ListDocuments (QueryEqual "email" ["ana@x.com"])]
          /\ cookieJar w'
             = <["appwrite-session" :=
                   session_cookie (secret session_1) (production steady)]>
                       (cookieJar ana_on_file)).
Proof.
  split; [reflexivity|].
  split; [reflexivity|].
  split; [reflexivity|].
  split; [reflexivity|].
  split; [reflexivity|].
  split; [right; reflexivity|].
  apply (verifySecret_no_update_needed steady ana_on_file "I1" "123456" None
      (Some "ana@x.com") "ana@x.com" (ana (Some "I1")) session_1 account_I1);
    [reflexivity | reflexivity | reflexivity | reflexivity | reflexivity |
        right; reflexivity].
Defined.

Lemma verifySecret_succeeds_without_profile_witness :
  (createSession_reply steady (clock empty_world) "I1" "123456" = Ok
      session_1)
  /\ (get_reply steady (1 + clock empty_world) (SessionSecret (secret
      session_1)) = Ok account_I1)
  /\ (truthy (Some "ana@x.com") = Some "ana@x.com")
  /\ (truthy None = None)
  /\ (fault steady (2 + clock empty_world) = None)
  /\ (first_with_email "ana@x.com" (profiles empty_world ++ arrivals steady (2
      + clock empty_world))
        = None)
  /\ (exists w',
          verifySecret steady "I1" "123456" None (Some "ana@x.com")
              empty_world
          = (Returned {| sessionId := session_id session_1; success := true;
                         vr_accountId := account_id account_I1 |}, w')
          /\ profiles w' = profiles empty_world ++ arrivals steady (2 + clock
              empty_world)
          /\ storeCalls (journal w')
             = storeCalls (journal empty_world)
               ++ [ListDocuments (QueryEqual "email" ["ana@x.com"])]
          /\ cookieJar w'
             = <["appwrite-session" :=
                   session_cookie (secret session_1) (production steady)]>
                       (cookieJar empty_world)).
Proof.
  split; [reflexivity|].
  split; [reflexivity|].
  split; [reflexivity|].
  split; [reflexivity|].
  split; [reflexivity|].
  split; [reflexivity|].
  apply (verifySecret_succeeds_without_profile steady empty_world "I1"
      "123456" None (Some "ana@x.com") "ana@x.com" session_1 account_I1);
    [reflexivity | reflexivity | reflexivity | reflexivity | reflexivity |
        reflexivity].
Defined.



Lemma getTotalSpaceUsed_unauthenticated_witness :
  (sessionClient_reply steady (clock stranger_signed_in) (cookieJar
      stranger_signed_in !! "appwrite-session")
     = Ok tt)
  /\ (fst (getCurrentUser steady (ticked stranger_signed_in)) = Returned None)
  /\ (exists w',
          getTotalSpaceUsed steady time_of files_listing stranger_signed_in
          = (Threw (Exn (new_Error "User is not authenticated.")), w')
          /\ clock w' = clock (snd (getCurrentUser steady (ticked
              stranger_signed_in)))
          /\ In (Console LevelLog
                   [LThrown (Exn (new_Error "User is not authenticated."));
                    LStr "Error calculating total space used:, "])
                (journal w')).
Proof.
  split; [reflexivity|].
  split; [reflexivity|].
  apply (getTotalSpaceUsed_unauthenticated steady time_of files_listing
      stranger_signed_in);
    [reflexivity | reflexivity].
Defined.

Lemma latestDate_is_the_latest_witness :
  ((forall f, In f files_of_ana -> file_type f = image ->
        file_updatedAt f <> "" /\ time_of (file_updatedAt f) <> None))
  /\ (let date :=
          latestDate (category (fold_left (count_file time_of) files_of_ana
                                  totalSpace_initial) image) in
        (of_type image files_of_ana = [] -> date = "")
        /\ (of_type image files_of_ana <> [] ->
            exists f, In f files_of_ana /\ file_type f = image /\ date =
                file_updatedAt f
              /\ forall g, In g files_of_ana -> file_type g = image ->
                   Date_gt time_of (file_updatedAt g) (file_updatedAt f)
                   = false)).
Proof.
  split; [intros f [<-|[<-|[<-|[]]]] Ht; try discriminate Ht; split;
      discriminate|].
  apply (latestDate_is_the_latest time_of image files_of_ana);
    [intros f [<-|[<-|[<-|[]]]] Ht; try discriminate Ht; split; discriminate].
Defined.
